(** * Tensorforce: agent registry and hyperparameter tuning objective

    A shallow embedding of

    - [tensorforce/util/agent_util.py]: the string-keyed agent registry with
      [create_agent] and [get_default_config];
    - [tune.py]: [TensorforceWorker.compute], the evaluation function handed to
      the BOHB optimiser.

    Python floats are IEEE binary64 numbers and are modelled by Rocq's
    primitive floats; Python ints are [Z]; dictionaries built by [dict(...)]
    are association lists in keyword order; the registry is a [gmap]. *)

From Stdlib Require Import ZArith Floats.
From stdpp Require Import gmap strings list.

Local Open Scope Z_scope.

(** ** Exceptions and results *)

Inductive exn : Type :=
  | TensorForceValueError (msg : string)
  | KeyError (key : string)
  | AssertionError
  | ValueError
  | OverflowError.

Inductive result (A : Type) : Type :=
  | Ok (a : A)
  | Raise (e : exn).
Arguments Ok {A} a.
Arguments Raise {A} e.

Definition raises {A} (r : result A) : Prop :=
  match r with Ok _ => False | Raise _ => True end.

Global Instance result_ret : MRet result := λ A a, Ok a.
Global Instance result_bind : MBind result := λ A B k r,
  match r with
  | Ok a => k a
  | Raise e => Raise e
  end.

(** ** [agent_util.py] *)

Module AgentUtil.

(** The two classes imported from [tensorforce.rl_agents] that the registry
    names. *)
Inductive agent_class : Type := RandomAgent | DQNAgent.

(** [agents = {'RandomAgent': RandomAgent, 'DQNAgent': DQNAgent}] *)
Definition agents : gmap string agent_class :=
  <["RandomAgent" := RandomAgent]> (<["DQNAgent" := DQNAgent]> ∅).

Section Registry.
(** Configuration mappings are opaque to this layer. *)
Variable Dict : Type.
(** The value-function classes and the class attributes read by
    [get_default_config]; they live in [tensorforce.rl_agents]. *)
Variable value_function_class : Type.
Variable default_config : agent_class → Dict.
Variable value_function_ref : agent_class → value_function_class.
Variable vf_default_config : value_function_class → Dict.

(** The object returned by [agent_class(agent_config, network_config)]:
    an instance of [inst_class] built from the two mappings. *)
Record agent_instance : Type := new_agent {
  inst_class : agent_class;
  inst_agent_config : Dict;
  inst_network_config : Dict
}.

(** [tensorforce.config.Config(d)]: the wrapper object around [d]. *)
Inductive Config : Type := MkConfig (d : Dict).

(** ["No such agent: {}".format(agent_type)] *)
Definition no_such_agent (agent_type : string) : exn :=
  TensorForceValueError ("No such agent: " +:+ agent_type).

Definition create_agent (agent_type : string) (agent_config network_config : Dict)
  : result agent_instance :=
  match agents !! agent_type with
  | None => Raise (no_such_agent agent_type)
  | Some agent_class => Ok (new_agent agent_class agent_config network_config)
  end.

Definition get_default_config (agent_type : string) : result (Config * Config) :=
  match agents !! agent_type with
  | None => Raise (no_such_agent agent_type)
  | Some agent_class =>
      Ok (MkConfig (default_config agent_class),
          MkConfig (vf_default_config (value_function_ref agent_class)))
  end.

(** A name is registered when it is one of the two keys of [agents]. *)
Definition registered (agent_type : string) : Prop :=
  agent_type = "RandomAgent" ∨ agent_type = "DQNAgent".

Lemma agents_lookup (agent_type : string) :
  agents !! agent_type =
    if decide (agent_type = "RandomAgent") then Some RandomAgent
    else if decide (agent_type = "DQNAgent") then Some DQNAgent
    else None.
Proof.
  unfold agents.
  destruct (decide (agent_type = "RandomAgent")) as [->|?]; [done|].
  rewrite lookup_insert_ne by done.
  destruct (decide (agent_type = "DQNAgent")) as [->|?]; [done|].
  by rewrite lookup_insert_ne.
Qed.

Lemma agents_lookup_None (agent_type : string) :
  agents !! agent_type = None ↔ ¬ registered agent_type.
Proof.
  rewrite agents_lookup. unfold registered.
  destruct (decide (agent_type = "RandomAgent")) as [?|?];
    [split; [discriminate | tauto]|].
  destruct (decide (agent_type = "DQNAgent")) as [?|?];
    [split; [discriminate | tauto]|].
  split; [tauto | reflexivity].
Qed.

Lemma create_agent_raises (agent_type : string) (agent_config network_config : Dict) :
  raises (create_agent agent_type agent_config network_config)
  ↔ agents !! agent_type = None.
Proof using Type.
  unfold create_agent.
  destruct (agents !! agent_type); simpl; split; intros H;
    first [discriminate | contradiction | reflexivity | exact I].
Qed.

Lemma get_default_config_raises (agent_type : string) :
  raises (get_default_config agent_type) ↔ agents !! agent_type = None.
Proof.
  unfold get_default_config.
  destruct (agents !! agent_type); simpl; split; intros H;
    first [discriminate | contradiction | reflexivity | exact I].
Qed.

(** C1: [create_agent] raises exactly for the names other than
    ['RandomAgent'] and ['DQNAgent'], and what it raises is
    [TensorForceValueError] with the message ["No such agent: "] followed by
    the name; for each of the two registered names it returns an instance of
    the class of that name built from the two configuration mappings it was
    given. *)
Theorem create_agent_registered (agent_type : string) (agent_config network_config : Dict) :
  (raises (create_agent agent_type agent_config network_config)
   ↔ ¬ registered agent_type)
  ∧ (create_agent agent_type agent_config network_config
       = Raise (TensorForceValueError ("No such agent: " +:+ agent_type))
     ↔ ¬ registered agent_type)
  ∧ (∀ e, create_agent agent_type agent_config network_config = Raise e →
          e = TensorForceValueError ("No such agent: " +:+ agent_type))
  ∧ create_agent "RandomAgent" agent_config network_config
    = Ok (new_agent RandomAgent agent_config network_config)
  ∧ create_agent "DQNAgent" agent_config network_config
    = Ok (new_agent DQNAgent agent_config network_config).
Proof using Type.
  split; [|split; [|split; [|split; reflexivity]]].
  - rewrite create_agent_raises. apply agents_lookup_None.
  - rewrite <- agents_lookup_None. unfold create_agent.
    destruct (agents !! agent_type); split; try reflexivity; discriminate.
  - intros e. unfold create_agent.
    destruct (agents !! agent_type); [discriminate|].
    intros [= <-]. reflexivity.
Qed.

(** C7: for the two registered names [get_default_config] returns the pair
    made of the class's [default_config] and of the [default_config] of its
    [value_function_ref], each wrapped in [Config]; it raises exactly for
    the other names, and then the very error [create_agent] raises. *)
Theorem get_default_config_registered (agent_type : string) :
  get_default_config "RandomAgent"
    = Ok (MkConfig (default_config RandomAgent),
          MkConfig (vf_default_config (value_function_ref RandomAgent)))
  ∧ get_default_config "DQNAgent"
    = Ok (MkConfig (default_config DQNAgent),
          MkConfig (vf_default_config (value_function_ref DQNAgent)))
  ∧ (raises (get_default_config agent_type) ↔ ¬ registered agent_type)
  ∧ ∀ agent_config network_config e,
      get_default_config agent_type = Raise e
      ↔ create_agent agent_type agent_config network_config = Raise e.
Proof.
  split; [reflexivity|]. split; [reflexivity|]. split.
  - rewrite get_default_config_raises. apply agents_lookup_None.
  - intros agent_config network_config e.
    unfold get_default_config, create_agent.
    destruct (agents !! agent_type); split; intros H; try discriminate;
      injection H as <-; reflexivity.
Qed.

(** X1: when [create_agent] returns an agent, the agent holds the two
    mappings it was given, unchanged, and [get_default_config] returns, for
    the same name, the defaults of the class of that agent and of its value
    function. *)
Theorem create_agent_default_config (agent_type : string)
    (agent_config network_config : Dict) (agent : agent_instance) :
  create_agent agent_type agent_config network_config = Ok agent →
  inst_agent_config agent = agent_config
  ∧ inst_network_config agent = network_config
  ∧ get_default_config agent_type
    = Ok (MkConfig (default_config (inst_class agent)),
          MkConfig (vf_default_config (value_function_ref (inst_class agent)))).
Proof.
  unfold create_agent, get_default_config.
  destruct (agents !! agent_type) as [c|]; [|discriminate].
  intros [= <-]. repeat split.
Qed.

(** X2: the registry has no aliases: two names under which [create_agent]
    builds agents of one and the same class are the same name. *)
Theorem create_agent_class_names (type1 type2 : string)
    (config1 network1 config2 network2 : Dict) (agent1 agent2 : agent_instance) :
  create_agent type1 config1 network1 = Ok agent1 →
  create_agent type2 config2 network2 = Ok agent2 →
  inst_class agent1 = inst_class agent2 →
  type1 = type2.
Proof using Type.
  unfold create_agent. rewrite !agents_lookup.
  destruct (decide (type1 = "RandomAgent")) as [->|?];
    [|destruct (decide (type1 = "DQNAgent")) as [->|?]; [|discriminate]];
    (destruct (decide (type2 = "RandomAgent")) as [->|?];
     [|destruct (decide (type2 = "DQNAgent")) as [->|?]; [|discriminate]]);
    intros [= <-] [= <-]; simpl; intros Hclass;
    first [reflexivity | discriminate].
Qed.

End Registry.

Lemma create_agent_default_config_witness :
  get_default_config nat bool (λ _, 0%nat) (λ _, true) (λ _, 1%nat) "DQNAgent"
  = Ok (MkConfig nat 0%nat, MkConfig nat 1%nat).
Proof.
  exact (proj2 (proj2 (create_agent_default_config nat bool (λ _, 0%nat)
                         (λ _, true) (λ _, 1%nat) "DQNAgent" 5%nat 7%nat
                         (new_agent nat DQNAgent 5%nat 7%nat) eq_refl))).
Defined.

Lemma create_agent_class_names_witness : "DQNAgent" = "DQNAgent".
Proof.
  exact (create_agent_class_names nat "DQNAgent" "DQNAgent" 1%nat 2%nat 3%nat 4%nat
           (new_agent nat DQNAgent 1%nat 2%nat) (new_agent nat DQNAgent 3%nat 4%nat)
           eq_refl eq_refl eq_refl).
Defined.

End AgentUtil.

(** ** Python floats and ints *)

Module PyFloat.

(** The integer part and the floor of the finite number [(-1)^s * m * 2^e]:
    [Z.quot] rounds toward zero, [Z.div] rounds down. *)
Definition trunc_finite (s : bool) (m : positive) (e : Z) : Z :=
  if 0 <=? e then cond_Zopp s (Z.pos m) * 2 ^ e
  else Z.quot (cond_Zopp s (Z.pos m)) (2 ^ (- e)).

Definition floor_finite (s : bool) (m : positive) (e : Z) : Z :=
  if 0 <=? e then cond_Zopp s (Z.pos m) * 2 ^ e
  else (cond_Zopp s (Z.pos m)) / (2 ^ (- e)).

(** The nearest integer, ties to the even one. *)
Definition round_finite (s : bool) (m : positive) (e : Z) : Z :=
  if 0 <=? e then cond_Zopp s (Z.pos m) * 2 ^ e
  else
    let d := 2 ^ (- e) in
    let q := Z.pos m / d in
    let r := Z.pos m mod d in
    cond_Zopp s
      (if 2 * r <? d then q
       else if d <? 2 * r then q + 1
       else if Z.even q then q else q + 1).

(** [int(x)] on a float: truncation; [ValueError] on NaN and
    [OverflowError] on an infinity. *)
Definition py_int (x : float) : result Z :=
  match Prim2SF x with
  | S754_zero _ => Ok 0
  | S754_infinity _ => Raise OverflowError
  | S754_nan => Raise ValueError
  | S754_finite s m e => Ok (trunc_finite s m e)
  end.

(** [math.floor(x)], with the same two errors. *)
Definition py_floor (x : float) : result Z :=
  match Prim2SF x with
  | S754_zero _ => Ok 0
  | S754_infinity _ => Raise OverflowError
  | S754_nan => Raise ValueError
  | S754_finite s m e => Ok (floor_finite s m e)
  end.

(** [round(x)] with one argument: the nearest int, ties to even. *)
Definition py_round (x : float) : result Z :=
  match Prim2SF x with
  | S754_zero _ => Ok 0
  | S754_infinity _ => Raise OverflowError
  | S754_nan => Raise ValueError
  | S754_finite s m e => Ok (round_finite s m e)
  end.

(** The conversion of an int operand in mixed arithmetic: the nearest
    float, [OverflowError] when the int is too large. *)
Definition float_of_int (n : Z) : result float :=
  match binary_normalize prec emax n 0 false with
  | S754_infinity _ => Raise OverflowError
  | sf => Ok (SF2Prim sf)
  end.

(** [x * n] for a float [x] and an int [n]. *)
Definition mul_float_int (x : float) (n : Z) : result float :=
  y ← float_of_int n; Ok (PrimFloat.mul x y).

End PyFloat.

(** ** [tune.py] *)

Module Tune.
Import PyFloat.

Set Warnings "-inexact-float,-register-all".

(** Values stored in the dictionaries that [compute] builds. *)
Inductive pyval : Type :=
  | PNone
  | PBool (b : bool)
  | PInt (n : Z)
  | PFloat (x : float)
  | PStr (s : string)
  | PDict (items : list (string * pyval)).

(** [d[key]] on a dictionary value. *)
Fixpoint assoc (key : string) (items : list (string * pyval)) : option pyval :=
  match items with
  | [] => None
  | (k, v) :: rest => if String.eqb k key then Some v else assoc key rest
  end.

Definition item (key : string) (d : pyval) : option pyval :=
  match d with
  | PDict items => assoc key items
  | _ => None
  end.

(** A sampled hyperparameter point.  The field types are those declared by
    [get_configspace]: integer and float hyperparameters and categorical
    ones, whose values are strings.  The three hyperparameters under an
    [add_condition] are absent from the dictionary when inactive. *)
Record Config : Type := {
  batch_size : Z;
  frequency : float;
  learning_rate : float;
  horizon : Z;
  discount : float;
  ratio_based : string;
  baseline : string;
  baseline_weight : option float;
  baseline_learning_rate : option float;
  estimate_advantage : option string;
  entropy_regularization : float
}.

(** [config[key]] for a key that may be absent. *)
Definition getitem {A} (key : string) (v : option A) : result A :=
  match v with
  | Some a => Ok a
  | None => Raise (KeyError key)
  end.

(** Line 39: [max(1, int(config['frequency'] * config['batch_size']))]. *)
Definition update_frequency (config : Config) : result Z :=
  p ← mul_float_int (frequency config) (batch_size config);
  n ← py_int p;
  Ok (Z.max 1 n).

(** [dict(network=dict(type='auto', size=64, depth=2, rnn=False))] *)
Definition auto_network : pyval :=
  PDict [("network",
          PDict [("type", PStr "auto"); ("size", PInt 64); ("depth", PInt 2);
                 ("rnn", PBool false)])].

(** Lines 44-47. *)
Definition objective_of (config : Config) : pyval :=
  if String.eqb (ratio_based config) "yes" then
    PDict [("type", PStr "policy_gradient"); ("ratio_based", PBool true);
           ("clipping_value", PFloat 0.2)]
  else
    PDict [("type", PStr "policy_gradient"); ("ratio_based", PBool false);
           ("clipping_value", PFloat 0.2)].

(** The six variables assigned by each arm of the baseline branch. *)
Record bundle : Type := {
  predict_horizon_values : pyval;
  bundle_estimate_advantage : pyval;
  predict_action_values : pyval;
  baseline_policy : pyval;
  baseline_optimizer : pyval;
  baseline_objective : pyval
}.

Definition value_objective : pyval :=
  PDict [("type", PStr "value"); ("value", PStr "state")].

(** The bundle of each arm of the branch of lines 52-76. *)
Definition no_baseline : bundle :=
  {| predict_horizon_values := PBool false;
     bundle_estimate_advantage := PBool false;
     predict_action_values := PBool false;
     baseline_policy := PNone;
     baseline_optimizer := PNone;
     baseline_objective := PNone |}.

Definition same_baseline (estimate_advantage : string) (weight : float) : bundle :=
  {| predict_horizon_values := PStr "early";
     bundle_estimate_advantage := PBool (String.eqb estimate_advantage "yes");
     predict_action_values := PBool false;
     baseline_policy := PNone;
     baseline_optimizer := PFloat weight;
     baseline_objective := value_objective |}.

Definition separate_baseline (estimate_advantage : string) (rate : float) : bundle :=
  {| predict_horizon_values := PStr "early";
     bundle_estimate_advantage := PBool (String.eqb estimate_advantage "yes");
     predict_action_values := PBool false;
     baseline_policy := auto_network;
     baseline_optimizer :=
       PDict [("type", PStr "adam"); ("learning_rate", PFloat rate)];
     baseline_objective := value_objective |}.

(** Lines 52-76. *)
Definition baseline_branch (config : Config) : result bundle :=
  if String.eqb (baseline config) "no" then Ok no_baseline
  else if String.eqb (baseline config) "same" then
    ea ← getitem "estimate_advantage" (estimate_advantage config);
    w ← getitem "baseline_weight" (baseline_weight config);
    Ok (same_baseline ea w)
  else if String.eqb (baseline config) "yes" then
    ea ← getitem "estimate_advantage" (estimate_advantage config);
    lr ← getitem "baseline_learning_rate" (baseline_learning_rate config);
    Ok (separate_baseline ea lr)
  else Raise AssertionError.

(** Lines 78-81. *)
Definition entropy_threshold : float := 3e-5%float.

Definition clamp_entropy (x : float) : float :=
  if PrimFloat.ltb x entropy_threshold then 0.0%float else x.

(** Lines 39-91: the [agent] dictionary. *)
Definition agent_config (config : Config) : result pyval :=
  freq ← update_frequency config;
  let update :=
    PDict [("unit", PStr "episodes"); ("batch_size", PInt (batch_size config));
           ("frequency", PInt freq)] in
  let policy := auto_network in
  let optimizer :=
    PDict [("type", PStr "adam"); ("learning_rate", PFloat (learning_rate config))] in
  let objective := objective_of config in
  b ← baseline_branch config;
  let entropy := clamp_entropy (entropy_regularization config) in
  Ok (PDict
        [("policy", policy); ("memory", PStr "recent"); ("update", update);
         ("optimizer", optimizer); ("objective", objective);
         ("reward_estimation",
          PDict [("horizon", PInt (horizon config));
                 ("discount", PFloat (discount config));
                 ("predict_horizon_values", predict_horizon_values b);
                 ("estimate_advantage", bundle_estimate_advantage b);
                 ("predict_action_values", predict_action_values b)]);
         ("baseline_policy", baseline_policy b);
         ("baseline_optimizer", baseline_optimizer b);
         ("baseline_objective", baseline_objective b);
         ("entropy_regularization", PFloat entropy)]).

(** *** Numpy reductions used by [compute] *)

(** [np.maximum]: [a] when [a >= b] or [a] is NaN, else [b]; so a NaN
    operand wins. *)
Definition np_maximum (a b : float) : float :=
  if PrimFloat.leb b a || PrimFloat.is_nan a then a else b.

(** [float(np.amax(l, axis=0))]: the reduction of the list by [np.maximum],
    [ValueError] on an empty list. *)
Definition np_amax (l : list float) : result float :=
  match l with
  | [] => Raise ValueError
  | x :: rest => Ok (foldl np_maximum x rest)
  end.

(** A reference mean, summing from left to right.  Numpy's own order of
    summation is not fixed by this repository, so [compute] below takes the
    mean as a parameter; this one serves to run it. *)
Definition mean_seq (l : list float) : float :=
  PrimFloat.div (foldl PrimFloat.add 0%float l)
                (SF2Prim (binary_normalize prec emax (Z.of_nat (length l)) 0 false)).

(** *** The evaluation loop *)

(** [l[-20:]] and [l[n : n + 20]]. *)
Definition last_episodes (l : list float) : list float :=
  drop (length l - 20) l.

Definition window (n : nat) (l : list float) : list float :=
  take 20 (drop n l).

Section Worker.

(** The environment object, [float(np.mean(., axis=0))], and the content of
    [episode_rewards] of the Runner objects, numbered in the order of their
    construction, once run and closed. *)
Variable Environment : Type.
Variable np_mean : list float → float.
Variable episode_rewards : nat → list float.

Record TensorforceWorker : Type := {
  environment : Environment;
  max_episode_timesteps : option Z
}.

(** Calls into [tensorforce.execution.Runner]. *)
Inductive call : Type :=
  | Runner_init (runner : nat) (agent : pyval) (env : Environment)
                (max_timesteps : option Z)
  | Runner_run (runner : nat) (num_episodes : Z) (use_tqdm : bool)
  | Runner_close (runner : nat).

(** What [compute] acts on: the calls made so far and the number of Runner
    objects constructed so far. *)
Record World : Type := {
  calls : list call;
  constructed : nat
}.

Definition M (A : Type) : Type := World → result A * World.

#[local] Instance M_ret : MRet M := λ A a w, (Ok a, w).
#[local] Instance M_bind : MBind M := λ A B k m w,
  match m w with
  | (Ok a, w') => k a w'
  | (Raise e, w') => (Raise e, w')
  end.

Definition lift {A} (r : result A) : M A := λ w, (r, w).

Definition log (c : call) (w : World) : World :=
  {| calls := calls w ++ [c]; constructed := constructed w |}.

(** [Runner(agent=..., environment=..., max_episode_timesteps=...)] *)
Definition Runner (agent : pyval) (env : Environment) (max_timesteps : option Z)
  : M nat := λ w,
  let r := constructed w in
  (Ok r, {| calls := calls w ++ [Runner_init r agent env max_timesteps];
            constructed := S r |}).

Definition run (runner : nat) (num_episodes : Z) (use_tqdm : bool) : M unit :=
  λ w, (Ok tt, log (Runner_run runner num_episodes use_tqdm) w).

Definition close (runner : nat) : M unit :=
  λ w, (Ok tt, log (Runner_close runner) w).

(** The three lists of lines 94-96. *)
Record tallies : Type := {
  final_reward : list float;
  max_reward : list float;
  rewards : list (list float)
}.

Definition no_tallies : tallies :=
  {| final_reward := []; max_reward := []; rewards := [] |}.

(** Lines 108-111. *)
Definition average_rewards (rs : list float) : list float :=
  map (λ n, np_mean (window n rs)) (seq 0 (length rs - 20)).

(** Lines 99-113: one pass of the loop body. *)
Definition repetition (self : TensorforceWorker) (agent : pyval) (t : tallies)
  : M tallies :=
  runner ← Runner agent (environment self) (max_episode_timesteps self);
  _ ← run runner 200 false;
  _ ← close runner;
  let rs := episode_rewards runner in
  let final := np_mean (last_episodes rs) in
  best ← lift (np_amax (average_rewards rs));
  mret {| final_reward := final_reward t ++ [final];
          max_reward := max_reward t ++ [best];
          rewards := rewards t ++ [rs] |}.

(** [for n in range(k): body] *)
Fixpoint for_range (k : nat) (body : tallies → M tallies) (t : tallies) : M tallies :=
  match k with
  | O => mret t
  | S k' => t' ← body t; for_range k' body t'
  end.

(** Lines 94-113. *)
Definition evaluate (self : TensorforceWorker) (agent : pyval) (budget : float)
  : M tallies :=
  n ← lift (py_round budget);
  for_range (Z.to_nat n) (repetition self agent) no_tallies.

(** [dict(loss=loss, info=dict(rewards=rewards))] *)
Record outcome : Type := {
  loss : float;
  info_rewards : list (list float)
}.

(** Lines 116-119. *)
Definition loss_of (t : tallies) : float :=
  let mean_final_reward := np_mean (final_reward t) in
  let mean_max_reward := np_mean (max_reward t) in
  PrimFloat.sub (PrimFloat.opp mean_final_reward) mean_max_reward.

(** [compute(self, config_id, config, budget, working_directory)]; the body
    reads neither [config_id] nor [working_directory]. *)
Definition compute (self : TensorforceWorker) (config : Config) (budget : float)
  : M outcome :=
  agent ← lift (agent_config config);
  t ← evaluate self agent budget;
  mret {| loss := loss_of t; info_rewards := rewards t |}.

End Worker.

Arguments environment {Environment} _.
Arguments max_episode_timesteps {Environment} _.
Arguments Runner_init {Environment} runner agent env max_timesteps.
Arguments Runner_run {Environment} runner num_episodes use_tqdm.
Arguments Runner_close {Environment} runner.
Arguments calls {Environment} _.
Arguments constructed {Environment} _.
Arguments lift {Environment A} r w.
Arguments Runner {Environment} agent env max_timesteps w.
Arguments run {Environment} runner num_episodes use_tqdm w.
Arguments close {Environment} runner w.
Arguments repetition {Environment} np_mean episode_rewards self agent t w.
Arguments for_range {Environment} k body t w.
Arguments evaluate {Environment} np_mean episode_rewards self agent budget w.
Arguments compute {Environment} np_mean episode_rewards self config budget w.

(** The calls expected of one repetition on its Runner [r]. *)
Definition session {Environment} (self : TensorforceWorker Environment)
    (agent : pyval) (r : nat) : list (call Environment) :=
  [Runner_init r agent (environment self) (max_episode_timesteps self);
   Runner_run r 200 false;
   Runner_close r].

(** The state reached from [w] with tallies [t] after [k] repetitions on
    the Runners [first], [first + 1], ... that recorded the maxima [maxs]. *)
Definition recorded {Environment} (np_mean : list float → float)
    (episode_rewards : nat → list float) (self : TensorforceWorker Environment)
    (agent : pyval) (t : tallies) (w : World Environment) (first k : nat)
    (maxs : list float) : result tallies * World Environment :=
  (Ok {| final_reward := final_reward t ++
           map (λ r, np_mean (last_episodes (episode_rewards r))) (seq first k);
         max_reward := max_reward t ++ maxs;
         rewards := rewards t ++ map episode_rewards (seq first k) |},
   {| calls := calls w ++ flat_map (session self agent) (seq first k);
      constructed := first + k |}).

(** *** The specification's wording of two quantities *)

(** The update frequency: [max(1, floor(frequency * batch_size))]. *)
Definition spec_update_frequency (config : Config) : result Z :=
  p ← mul_float_int (frequency config) (batch_size config);
  n ← py_floor p;
  Ok (Z.max 1 n).

(** All the windows of 20 consecutive episodes, and the largest of their
    means. *)
Definition spec_windows (rs : list float) : list (list float) :=
  map (λ n, window n rs) (seq 0 (length rs + 1 - 20)).

Definition spec_max_windowed (np_mean : list float → float) (rs : list float)
  : result float :=
  np_amax (map np_mean (spec_windows rs)).

(** Two sampled points that differ at most in [estimate_advantage]. *)
Definition agree_but_estimate_advantage (c1 c2 : Config) : Prop :=
  batch_size c1 = batch_size c2 ∧ frequency c1 = frequency c2
  ∧ learning_rate c1 = learning_rate c2 ∧ horizon c1 = horizon c2
  ∧ discount c1 = discount c2 ∧ ratio_based c1 = ratio_based c2
  ∧ baseline c1 = baseline c2 ∧ baseline_weight c1 = baseline_weight c2
  ∧ baseline_learning_rate c1 = baseline_learning_rate c2
  ∧ entropy_regularization c1 = entropy_regularization c2.

(** The hyperparameters under a condition of [get_configspace] are present
    when their condition holds. *)
Definition active_present (config : Config) : Prop :=
  (baseline config ≠ "no" → is_Some (estimate_advantage config))
  ∧ (baseline config = "same" → is_Some (baseline_weight config))
  ∧ (baseline config = "yes" → is_Some (baseline_learning_rate config)).

(** *** [get_configspace] *)

(** The hyperparameter and condition objects of the ConfigSpace library, by
    the arguments they are constructed with. *)
Inductive hyperparameter : Type :=
  | UniformIntegerHyperparameter (name : string) (lower upper : Z) (log : bool)
  | UniformFloatHyperparameter (name : string) (lower upper : float) (log : bool)
  | CategoricalHyperparameter (name : string) (choices : list string).

Definition hp_name (h : hyperparameter) : string :=
  match h with
  | UniformIntegerHyperparameter name _ _ _ => name
  | UniformFloatHyperparameter name _ _ _ => name
  | CategoricalHyperparameter name _ => name
  end.

Inductive condition : Type :=
  | EqualsCondition (child parent : hyperparameter) (value : string)
  | NotEqualsCondition (child parent : hyperparameter) (value : string).

Definition child_of (c : condition) : hyperparameter :=
  match c with
  | EqualsCondition child _ _ => child
  | NotEqualsCondition child _ _ => child
  end.

(** A configuration space: what has been added to it, in order. *)
Record ConfigurationSpace : Type := {
  hyperparameters : list hyperparameter;
  conditions : list condition
}.

Definition add_hyperparameter (hyperparameter : hyperparameter)
    (cs : ConfigurationSpace) : ConfigurationSpace :=
  {| hyperparameters := hyperparameters cs ++ [hyperparameter];
     conditions := conditions cs |}.

Definition add_condition (condition : condition) (cs : ConfigurationSpace)
  : ConfigurationSpace :=
  {| hyperparameters := hyperparameters cs;
     conditions := conditions cs ++ [condition] |}.

(** Lines 124-198. *)
Definition get_configspace : ConfigurationSpace :=
  let configspace := {| hyperparameters := []; conditions := [] |} in
  let batch_size := UniformIntegerHyperparameter "batch_size" 1 50 true in
  let configspace := add_hyperparameter batch_size configspace in
  let frequency := UniformFloatHyperparameter "frequency" 1e-2 1.0 true in
  let configspace := add_hyperparameter frequency configspace in
  let learning_rate := UniformFloatHyperparameter "learning_rate" 1e-5 0.1 true in
  let configspace := add_hyperparameter learning_rate configspace in
  let horizon := UniformIntegerHyperparameter "horizon" 1 100 true in
  let configspace := add_hyperparameter horizon configspace in
  let discount := UniformFloatHyperparameter "discount" 0.8 1.0 true in
  let configspace := add_hyperparameter discount configspace in
  let ratio_based := CategoricalHyperparameter "ratio_based" ["no"; "yes"] in
  let configspace := add_hyperparameter ratio_based configspace in
  let baseline := CategoricalHyperparameter "baseline" ["no"; "same"; "yes"] in
  let configspace := add_hyperparameter baseline configspace in
  let baseline_weight := UniformFloatHyperparameter "baseline_weight" 1e-2 1e2 false in
  let configspace := add_hyperparameter baseline_weight configspace in
  let baseline_learning_rate :=
    UniformFloatHyperparameter "baseline_learning_rate" 1e-5 0.1 true in
  let configspace := add_hyperparameter baseline_learning_rate configspace in
  let estimate_advantage := CategoricalHyperparameter "estimate_advantage" ["no"; "yes"] in
  let configspace := add_hyperparameter estimate_advantage configspace in
  let entropy_regularization :=
    UniformFloatHyperparameter "entropy_regularization" 1e-5 1.0 true in
  let configspace := add_hyperparameter entropy_regularization configspace in
  let configspace :=
    add_condition (NotEqualsCondition estimate_advantage baseline "no") configspace in
  let configspace :=
    add_condition (EqualsCondition baseline_weight baseline "same") configspace in
  let configspace :=
    add_condition (EqualsCondition baseline_learning_rate baseline "yes") configspace in
  configspace.

(** The dictionary that a sampled point stands for: the keys present and
    their values. *)
Definition optional (key : string) (v : option pyval) : list (string * pyval) :=
  match v with
  | Some x => [(key, x)]
  | None => []
  end.

Definition as_dict (config : Config) : list (string * pyval) :=
  [("batch_size", PInt (batch_size config));
   ("frequency", PFloat (frequency config));
   ("learning_rate", PFloat (learning_rate config));
   ("horizon", PInt (horizon config));
   ("discount", PFloat (discount config));
   ("ratio_based", PStr (ratio_based config));
   ("baseline", PStr (baseline config))]
  ++ optional "baseline_weight" (PFloat <$> baseline_weight config)
  ++ optional "baseline_learning_rate" (PFloat <$> baseline_learning_rate config)
  ++ optional "estimate_advantage" (PStr <$> estimate_advantage config)
  ++ [("entropy_regularization", PFloat (entropy_regularization config))].

(** A condition holds in a dictionary when the parent has a value equal to
    (or, for [NotEqualsCondition], different from) the condition's value. *)
Definition holds (c : condition) (d : list (string * pyval)) : bool :=
  match c with
  | EqualsCondition _ parent value =>
      match assoc (hp_name parent) d with
      | Some (PStr s) => String.eqb s value
      | _ => false
      end
  | NotEqualsCondition _ parent value =>
      match assoc (hp_name parent) d with
      | Some (PStr s) => negb (String.eqb s value)
      | _ => false
      end
  end.

(** A hyperparameter is active when all the conditions on it hold. *)
Definition active (cs : ConfigurationSpace) (d : list (string * pyval))
    (name : string) : bool :=
  forallb (λ c, holds c d)
          (List.filter (λ c, String.eqb (hp_name (child_of c)) name) (conditions cs)).

(** A value is legal for a hyperparameter when it is of its kind and within
    its bounds or among its choices. *)
Definition legal (h : hyperparameter) (v : pyval) : bool :=
  match h, v with
  | UniformIntegerHyperparameter _ lower upper _, PInt n =>
      (lower <=? n) && (n <=? upper)
  | UniformFloatHyperparameter _ lower upper _, PFloat x =>
      PrimFloat.leb lower x && PrimFloat.leb x upper
  | CategoricalHyperparameter _ choices, PStr s =>
      existsb (String.eqb s) choices
  | _, _ => false
  end.

(** A dictionary is a configuration of the space when every active
    hyperparameter has a legal value and no inactive one has a value. *)
Definition valid_configuration (cs : ConfigurationSpace)
    (d : list (string * pyval)) : bool :=
  forallb (λ h,
    match assoc (hp_name h) d with
    | Some v => active cs d (hp_name h) && legal h v
    | None => negb (active cs d (hp_name h))
    end) (hyperparameters cs).


(** *** Rounding of float products *)

(** After [k] shifts of [M]: the mantissa left, and the two sticky bits being
    set only when something was shifted out. *)
Definition shr_inv (M k : Z) (mrs : shr_record) : Prop :=
  0 ≤ shr_m mrs ∧ shr_m mrs * 2 ^ k ≤ M
  ∧ (shr_r mrs || shr_s mrs = true → shr_m mrs * 2 ^ k < M).

(** The check that [float(b)] is exactly [b]. *)
Definition small_int_exact (b : Z) : bool :=
  match binary_normalize prec emax b 0 false with
  | S754_finite false m e =>
      valid_binary (S754_finite false m e) && (e <=? 0)
      && (Z.pos m =? b * 2 ^ (- e))
  | _ => false
  end.

(** *** Sample inputs *)

Definition sample (mode : string) (freq : float) (size : Z) (entropy : float)
    (advantage : option string) : Config :=
  {| batch_size := size; frequency := freq; learning_rate := 0.001%float;
     horizon := 10; discount := 0.99%float; ratio_based := "yes";
     baseline := mode; baseline_weight := Some 1%float;
     baseline_learning_rate := Some 0.001%float;
     estimate_advantage := advantage;
     entropy_regularization := entropy |}.

Definition sample_worker : TensorforceWorker unit :=
  {| environment := tt; max_episode_timesteps := None |}.

Definition fresh_world : World unit := {| calls := []; constructed := 0 |}.

(** 200 episode rewards: 199 times [0.0], then [20.0]. *)
Definition late_reward : list float := replicate 199 0%float ++ [20%float].

(** A point of the search space, with a shared-network baseline. *)
Definition searched : Config :=
  {| batch_size := 10; frequency := 0.5%float; learning_rate := 0.001%float;
     horizon := 10; discount := 0.99%float; ratio_based := "no";
     baseline := "same"; baseline_weight := Some 1%float;
     baseline_learning_rate := None; estimate_advantage := Some "yes";
     entropy_regularization := 0.1%float |}.

(** The same point with a value for the inactive [baseline_learning_rate]. *)
Definition searched_other : Config :=
  {| batch_size := 10; frequency := 0.5%float; learning_rate := 0.001%float;
     horizon := 10; discount := 0.99%float; ratio_based := "no";
     baseline := "same"; baseline_weight := Some 1%float;
     baseline_learning_rate := Some 0.05%float; estimate_advantage := Some "yes";
     entropy_regularization := 0.1%float |}.

(** 20 episode rewards, too few for a window of line 110. *)
Definition short_run : list float := replicate 20 1%float.

(** *** The agent configuration *)

Lemma max_trunc_floor (s : bool) (m : positive) (e : Z) :
  Z.max 1 (trunc_finite s m e) = Z.max 1 (floor_finite s m e).
Proof.
  unfold trunc_finite, floor_finite.
  destruct (Z.leb_spec 0 e) as [He|He]; [reflexivity|].
  assert (0 < 2 ^ (- e)) as Hd by (apply Z.pow_pos_nonneg; lia).
  destruct s; simpl.
  - change (Z.neg m) with (- Z.pos m).
    rewrite Z.quot_opp_l by lia.
    pose proof (Z.quot_pos (Z.pos m) (2 ^ (- e)) ltac:(lia) Hd).
    assert (- Z.pos m / 2 ^ (- e) < 0) by (apply Z.div_lt_upper_bound; lia).
    lia.
  - now rewrite Z.quot_div_nonneg by lia.
Qed.

Lemma max_int_floor (x : float) :
  (n ← py_int x; Ok (Z.max 1 n)) = (n ← py_floor x; Ok (Z.max 1 n)).
Proof.
  unfold py_int, py_floor.
  destruct (Prim2SF x) as [| | |s m e]; try reflexivity.
  simpl. now rewrite max_trunc_floor.
Qed.

Lemma update_frequency_spec (config : Config) :
  update_frequency config = spec_update_frequency config.
Proof.
  unfold update_frequency, spec_update_frequency.
  destruct (mul_float_int (frequency config) (batch_size config)) as [p|];
    [apply max_int_floor | reflexivity].
Qed.

(** The shape of every dictionary [agent_config] returns. *)
Lemma agent_config_inv (config : Config) (agent : pyval) :
  agent_config config = Ok agent →
  ∃ n b, update_frequency config = Ok n ∧ baseline_branch config = Ok b ∧
    agent = PDict
      [("policy", auto_network); ("memory", PStr "recent");
       ("update",
        PDict [("unit", PStr "episodes"); ("batch_size", PInt (batch_size config));
               ("frequency", PInt n)]);
       ("optimizer",
        PDict [("type", PStr "adam");
               ("learning_rate", PFloat (learning_rate config))]);
       ("objective", objective_of config);
       ("reward_estimation",
        PDict [("horizon", PInt (horizon config));
               ("discount", PFloat (discount config));
               ("predict_horizon_values", predict_horizon_values b);
               ("estimate_advantage", bundle_estimate_advantage b);
               ("predict_action_values", predict_action_values b)]);
       ("baseline_policy", baseline_policy b);
       ("baseline_optimizer", baseline_optimizer b);
       ("baseline_objective", baseline_objective b);
       ("entropy_regularization",
        PFloat (clamp_entropy (entropy_regularization config)))].
Proof.
  unfold agent_config.
  destruct (update_frequency config) as [n|]; [|discriminate].
  destruct (baseline_branch config) as [b|]; [|discriminate].
  intros [= <-]. now exists n, b.
Qed.

Lemma mode_elem (mode : string) :
  mode ∈ ["no"; "same"; "yes"] ↔ mode = "no" ∨ mode = "same" ∨ mode = "yes".
Proof.
  rewrite !elem_of_cons, elem_of_nil. tauto.
Qed.

Lemma baseline_branch_inv (config : Config) (b : bundle) :
  baseline_branch config = Ok b →
  (baseline config = "no" ∧ b = no_baseline)
  ∨ (baseline config = "same" ∧
     ∃ ea w, estimate_advantage config = Some ea
             ∧ baseline_weight config = Some w ∧ b = same_baseline ea w)
  ∨ (baseline config = "yes" ∧
     ∃ ea lr, estimate_advantage config = Some ea
              ∧ baseline_learning_rate config = Some lr
              ∧ b = separate_baseline ea lr).
Proof.
  unfold baseline_branch.
  destruct (String.eqb_spec (baseline config) "no") as [->|_].
  { intros [= <-]. now left. }
  destruct (String.eqb_spec (baseline config) "same") as [->|_].
  { destruct (estimate_advantage config) as [ea|]; [|discriminate].
    destruct (baseline_weight config) as [w|]; [|discriminate].
    intros [= <-]. right; left. eauto 6. }
  destruct (String.eqb_spec (baseline config) "yes") as [->|_]; [|discriminate].
  destruct (estimate_advantage config) as [ea|]; [|discriminate].
  destruct (baseline_learning_rate config) as [lr|]; [|discriminate].
  intros [= <-]. right; right. eauto 6.
Qed.

Lemma baseline_branch_defined (config : Config) :
  baseline config ∈ ["no"; "same"; "yes"] → active_present config →
  ∃ b, baseline_branch config = Ok b.
Proof.
  intros Hin (Hea & Hw & Hlr). unfold baseline_branch.
  destruct (String.eqb_spec (baseline config) "no") as [?|Hno]; [eauto|].
  destruct (Hea Hno) as [ea ->].
  destruct (String.eqb_spec (baseline config) "same") as [Hsame|?].
  { destruct (Hw Hsame) as [w ->]. simpl. eauto. }
  destruct (String.eqb_spec (baseline config) "yes") as [Hyes|?].
  { destruct (Hlr Hyes) as [lr ->]. simpl. eauto. }
  apply mode_elem in Hin. tauto.
Qed.

(** The configurations of the search space are assembled: the dictionary
    exists as soon as line 39 yields a number. *)
Lemma agent_config_defined (config : Config) (n : Z) :
  update_frequency config = Ok n →
  baseline config ∈ ["no"; "same"; "yes"] → active_present config →
  ∃ agent, agent_config config = Ok agent.
Proof.
  intros Hn Hin Hact. unfold agent_config. rewrite Hn.
  destruct (baseline_branch_defined config Hin Hact) as [b ->].
  simpl. eauto.
Qed.

(** C5: the update frequency that [compute] derives, and stores under
    [update.frequency], is [max(1, floor(frequency * batch_size))]; it is 5
    for frequency 0.5 and batch size 10, and 1 for frequency 0.01 and batch
    size 1. *)
Theorem update_frequency_floor (config : Config) :
  update_frequency config = spec_update_frequency config
  ∧ (∀ agent, agent_config config = Ok agent →
       ∃ n, spec_update_frequency config = Ok n
            ∧ item "update" agent ≫= item "frequency" = Some (PInt n))
  ∧ (frequency config = 0.5%float → batch_size config = 10 →
       update_frequency config = Ok 5)
  ∧ (frequency config = 0.01%float → batch_size config = 1 →
       update_frequency config = Ok 1).
Proof.
  split; [apply update_frequency_spec|]. split; [|split].
  - intros agent (n & b & Hn & _ & ->)%agent_config_inv.
    exists n. now rewrite <- update_frequency_spec.
  - unfold update_frequency. now intros -> ->.
  - unfold update_frequency. now intros -> ->.
Qed.

(** C6: the [entropy_regularization] entry of the assembled dictionary is
    [0.0] when the sampled value is strictly below [3e-5] and the sampled
    value itself otherwise; [2e-5] gives [0.0], [5e-5] stays [5e-5]. *)
Theorem entropy_clamped (config : Config) (agent : pyval) :
  agent_config config = Ok agent →
  let x := entropy_regularization config in
  (PrimFloat.ltb x 3e-5%float = true →
     item "entropy_regularization" agent = Some (PFloat 0.0%float))
  ∧ (PrimFloat.ltb x 3e-5%float = false →
     item "entropy_regularization" agent = Some (PFloat x))
  ∧ (x = 2e-5%float → item "entropy_regularization" agent = Some (PFloat 0.0%float))
  ∧ (x = 5e-5%float → item "entropy_regularization" agent = Some (PFloat 5e-5%float)).
Proof.
  intros (n & b & _ & _ & ->)%agent_config_inv x. subst x.
  simpl. unfold clamp_entropy, entropy_threshold.
  repeat split.
  - now intros ->.
  - now intros ->.
  - now intros ->.
  - now intros ->.
Qed.

(** C9: under [baseline = 'no'] the assembled dictionary does not depend on
    [estimate_advantage]: two sampled points that agree on every other
    hyperparameter yield the same result, in which
    [reward_estimation.estimate_advantage] is [False]. *)
Theorem no_baseline_ignores_estimate_advantage (c1 c2 : Config) :
  baseline c1 = "no" → agree_but_estimate_advantage c1 c2 →
  agent_config c1 = agent_config c2
  ∧ ∀ agent, agent_config c1 = Ok agent →
      item "reward_estimation" agent ≫= item "estimate_advantage"
      = Some (PBool false).
Proof.
  intros Hno Hagree. split.
  - destruct c1, c2. unfold agree_but_estimate_advantage in Hagree.
    simpl in Hno, Hagree.
    destruct Hagree as (-> & -> & -> & -> & -> & -> & <- & -> & -> & ->).
    subst. reflexivity.
  - intros agent (n & b & _ & Hb & ->)%agent_config_inv.
    unfold baseline_branch in Hb. rewrite Hno in Hb.
    injection Hb as <-. reflexivity.
Qed.

(** C10: whichever of ['no'], ['same'], ['yes'] the baseline mode is, the
    bundle chosen and the assembled dictionary have
    [predict_action_values] equal to [False]; and the dictionary is
    assembled for such a mode once line 39 yields a number and the
    hyperparameters the mode reads are present. *)
Theorem predict_action_values_off (config : Config) :
  baseline config ∈ ["no"; "same"; "yes"] →
  (∀ b, baseline_branch config = Ok b → predict_action_values b = PBool false)
  ∧ (∀ agent, agent_config config = Ok agent →
       item "reward_estimation" agent ≫= item "predict_action_values"
       = Some (PBool false))
  ∧ (∀ n, update_frequency config = Ok n → active_present config →
       ∃ agent, agent_config config = Ok agent).
Proof.
  intros Hin.
  assert (∀ b, baseline_branch config = Ok b →
               predict_action_values b = PBool false) as Hoff.
  { intros b Hb.
    destruct (baseline_branch_inv config b Hb)
      as [[_ ->]|[[_ (ea & w & _ & _ & ->)]|[_ (ea & lr & _ & _ & ->)]]];
      reflexivity. }
  split; [exact Hoff|]. split.
  - intros agent (n & b & _ & Hb & ->)%agent_config_inv.
    simpl. now rewrite (Hoff b Hb).
  - intros n Hn Hact. now apply (agent_config_defined config n).
Qed.

(** *** The search space and the agent configuration *)

Lemma as_dict_lookup (config : Config) :
  assoc "batch_size" (as_dict config) = Some (PInt (batch_size config))
  ∧ assoc "frequency" (as_dict config) = Some (PFloat (frequency config))
  ∧ assoc "learning_rate" (as_dict config) = Some (PFloat (learning_rate config))
  ∧ assoc "horizon" (as_dict config) = Some (PInt (horizon config))
  ∧ assoc "discount" (as_dict config) = Some (PFloat (discount config))
  ∧ assoc "ratio_based" (as_dict config) = Some (PStr (ratio_based config))
  ∧ assoc "baseline" (as_dict config) = Some (PStr (baseline config))
  ∧ assoc "baseline_weight" (as_dict config) = PFloat <$> baseline_weight config
  ∧ assoc "baseline_learning_rate" (as_dict config)
    = PFloat <$> baseline_learning_rate config
  ∧ assoc "estimate_advantage" (as_dict config) = PStr <$> estimate_advantage config
  ∧ assoc "entropy_regularization" (as_dict config)
    = Some (PFloat (entropy_regularization config)).
Proof.
  unfold as_dict.
  destruct (baseline_weight config), (baseline_learning_rate config),
    (estimate_advantage config); repeat split; reflexivity.
Qed.

Lemma active_conditional (config : Config) :
  active get_configspace (as_dict config) "estimate_advantage"
  = negb (String.eqb (baseline config) "no")
  ∧ active get_configspace (as_dict config) "baseline_weight"
    = String.eqb (baseline config) "same"
  ∧ active get_configspace (as_dict config) "baseline_learning_rate"
    = String.eqb (baseline config) "yes".
Proof.
  unfold active. simpl. rewrite !andb_true_r. repeat split.
Qed.

Lemma valid_configuration_inv (config : Config) :
  valid_configuration get_configspace (as_dict config) = true →
  1 ≤ batch_size config ≤ 50
  ∧ PrimFloat.leb 0.01 (frequency config) = true
  ∧ PrimFloat.leb (frequency config) 1 = true
  ∧ baseline config ∈ ["no"; "same"; "yes"]
  ∧ active_present config.
Proof.
  destruct config as [bs fr lr hz di rb bl bw blr ea er].
  unfold valid_configuration, as_dict, active_present, active.
  rewrite mode_elem. simpl.
  destruct (String.eqb_spec bl "no") as [->|Hno];
    [|destruct (String.eqb_spec bl "same") as [->|Hsame];
      [|destruct (String.eqb_spec bl "yes") as [->|Hyes]]];
    destruct bw as [w|], blr as [r|], ea as [a|]; simpl;
    rewrite ?andb_true_iff, ?andb_false_r, ?Z.leb_le;
    intros H; try (exfalso; intuition discriminate).
  all: repeat split; try tauto; try lia; try discriminate; eauto.
Qed.

(** *** Binary64 products of a fraction and a small int *)

Lemma digits2_pos_lt (p : positive) : Z.pos p < 2 ^ Z.pos (digits2_pos p).
Proof.
  induction p as [p IH|p IH|]; simpl digits2_pos.
  - rewrite Pos2Z.inj_succ, Z.pow_succ_r by lia. lia.
  - rewrite Pos2Z.inj_succ, Z.pow_succ_r by lia. lia.
  - reflexivity.
Qed.

Lemma pow2_le_one (k : Z) : k ≤ 0 → 2 ^ k ≤ 1.
Proof.
  intros Hk. destruct (Z.eq_dec k 0) as [->|?]; [reflexivity|].
  rewrite Z.pow_neg_r by lia. lia.
Qed.

Lemma digits2_pos_le (p : positive) : ∀ k, Z.pos p < 2 ^ k → Z.pos (digits2_pos p) ≤ k.
Proof.
  induction p as [p IH|p IH|]; intros k Hk; simpl digits2_pos;
    (destruct (Z.le_gt_cases k 0) as [Hle|Hgt];
     [pose proof (pow2_le_one k Hle); lia|]).
  - replace k with (Z.succ (k - 1)) in Hk by lia.
    rewrite Z.pow_succ_r in Hk by lia.
    specialize (IH (k - 1) ltac:(lia)). lia.
  - replace k with (Z.succ (k - 1)) in Hk by lia.
    rewrite Z.pow_succ_r in Hk by lia.
    specialize (IH (k - 1) ltac:(lia)). lia.
  - lia.
Qed.

Lemma Zdigits2_le (m k : Z) : 0 ≤ m < 2 ^ k → 0 ≤ k → Zdigits2 m ≤ k.
Proof.
  intros [Hm Hlt] Hk. destruct m as [|p|p]; simpl; [lia| |lia].
  now apply digits2_pos_le.
Qed.

Lemma shr_1_inv (M k : Z) (mrs : shr_record) :
  0 ≤ k → shr_inv M k mrs → shr_inv M (k + 1) (shr_1 mrs).
Proof.
  intros Hk. unfold shr_inv. rewrite Z.pow_add_r, Z.pow_1_r by lia.
  assert (0 < 2 ^ k) as HP by (apply Z.pow_pos_nonneg; lia).
  set (P := 2 ^ k) in *. clearbody P.
  destruct mrs as [m r s]. cbn [shr_m shr_r shr_s]. intros (Hm & Hle & Hlt).
  destruct m as [|[p|p|]|p]; cbn [shr_1 shr_m shr_r shr_s orb]; try lia.
  - rewrite Z.mul_0_l in *. split; [lia|]. split; [lia|]. exact Hlt.
  - pose proof (Pos2Z.inj_xO p). split; [lia|]. split; [nia|].
    intros Hrs. specialize (Hlt Hrs). nia.
Qed.

Lemma iter_shr_1_inv (M : Z) (p : positive) : ∀ k mrs,
  0 ≤ k → shr_inv M k mrs →
  shr_inv M (k + Z.pos p) (SpecFloat.iter_pos shr_1 p mrs).
Proof.
  induction p as [p IH|p IH|]; intros k mrs Hk Hinv; simpl.
  - replace (k + Z.pos p~1) with (k + 1 + Z.pos p + Z.pos p) by lia.
    apply IH; [lia|]. apply IH; [lia|]. now apply shr_1_inv.
  - replace (k + Z.pos p~0) with (k + Z.pos p + Z.pos p) by lia.
    apply IH; [lia|]. now apply IH.
  - now apply shr_1_inv.
Qed.

Lemma shr_fexp_inv (M E : Z) (mrs : shr_record) (e' : Z) :
  0 ≤ M → shr_fexp prec emax M E loc_Exact = (mrs, e') →
  ∃ n, 0 ≤ n ∧ e' = E + n ∧ shr_inv M n mrs
       ∧ (n = 0 ∨ e' = fexp prec emax (Zdigits2 M + E)).
Proof.
  intros HM. unfold shr_fexp, shr. simpl shr_record_of_loc.
  assert (shr_inv M 0 {| shr_m := M; shr_r := false; shr_s := false |}) as H0.
  { unfold shr_inv. simpl. split; [lia|]. split; [lia | discriminate]. }
  destruct (fexp prec emax (Zdigits2 M + E) - E) as [|p|p] eqn:Hn;
    intros [= <- <-].
  - exists 0. split; [lia|]. split; [lia|]. split; [exact H0 | now left].
  - exists (Z.pos p). split; [lia|]. split; [lia|]. split.
    + now apply (iter_shr_1_inv M p 0).
    + right. lia.
  - exists 0. split; [lia|]. split; [lia|]. split; [exact H0 | now left].
Qed.

Lemma round_nearest_even_cases (mrs : shr_record) :
  let m := round_nearest_even (shr_m mrs) (loc_of_shr_record mrs) in
  m = shr_m mrs ∨ (m = shr_m mrs + 1 ∧ shr_r mrs || shr_s mrs = true).
Proof.
  destruct mrs as [m [] []]; simpl; try (now left); try (now right).
  destruct (Z.even m); [now left | now right].
Qed.

Lemma fexp_small (z : Z) : z ≤ 6 → fexp prec emax z ≤ -47.
Proof. unfold fexp, emin, prec, emax. lia. Qed.

Lemma small_digits (m b e : Z) :
  0 ≤ m → 1 ≤ b ≤ 50 → e ≤ 0 → m ≤ b * 2 ^ (- e) → Zdigits2 m + e ≤ 6.
Proof.
  intros Hm Hb He Hle.
  assert (0 < 2 ^ (- e)) by (apply Z.pow_pos_nonneg; lia).
  assert (m < 2 ^ (6 - e)).
  { replace (6 - e) with (6 + - e) by lia. rewrite Z.pow_add_r by lia.
    change (2 ^ 6) with 64. nia. }
  pose proof (Zdigits2_le m (6 - e) ltac:(lia) ltac:(lia)). lia.
Qed.

(** Rounding a positive number that is at most the integer [b] gives a
    finite float whose integer part is at most [b]. *)
Lemma binary_round_aux_le (M E b : Z) :
  0 ≤ M → E ≤ 0 → 1 ≤ b ≤ 50 → M ≤ b * 2 ^ (- E) →
  match binary_round_aux prec emax false M E loc_Exact with
  | S754_zero _ => True
  | S754_finite s m e => 0 ≤ trunc_finite s m e ≤ b
  | _ => False
  end.
Proof.
  intros HM HE Hb HMb. unfold binary_round_aux.
  destruct (shr_fexp prec emax M E loc_Exact) as [mrs1 e1] eqn:H1.
  apply shr_fexp_inv in H1 as (n & Hn & -> & (Hm1 & Hle1 & Hlt1) & He1); [|exact HM].
  pose proof (small_digits M b E HM Hb HE HMb) as Hd.
  pose proof (fexp_small _ Hd) as Hf.
  assert (E + n ≤ 0) as He1' by lia.
  assert (0 < 2 ^ n) as HPn by (apply Z.pow_pos_nonneg; lia).
  assert (0 < 2 ^ (- (E + n))) as HQ by (apply Z.pow_pos_nonneg; lia).
  assert (2 ^ (- E) = 2 ^ n * 2 ^ (- (E + n))) as Hsplit.
  { rewrite <- Z.pow_add_r by lia. f_equal. lia. }
  set (m2 := round_nearest_even (shr_m mrs1) (loc_of_shr_record mrs1)).
  assert (0 ≤ m2 ∧ m2 ≤ b * 2 ^ (- (E + n))) as [Hm2 Hm2b].
  { rewrite Hsplit in HMb.
    destruct (round_nearest_even_cases mrs1) as [Heq|[Heq Hrs]]; fold m2 in Heq;
      rewrite Heq.
    - split; [lia | nia].
    - specialize (Hlt1 Hrs). split; [lia | nia]. }
  clearbody m2.
  destruct (shr_fexp prec emax m2 (E + n) loc_Exact) as [mrs2 e2] eqn:H2.
  apply shr_fexp_inv in H2 as (n2 & Hn2 & -> & (Hm3 & Hle3 & _) & He2); [|exact Hm2].
  pose proof (small_digits m2 b (E + n) Hm2 Hb He1' Hm2b) as Hd2.
  pose proof (fexp_small _ Hd2) as Hf2.
  assert (E + n + n2 ≤ 0) as He2' by lia.
  assert (0 < 2 ^ n2) as HPn2 by (apply Z.pow_pos_nonneg; lia).
  assert (0 < 2 ^ (- (E + n + n2))) as HQ2 by (apply Z.pow_pos_nonneg; lia).
  assert (2 ^ (- (E + n)) = 2 ^ n2 * 2 ^ (- (E + n + n2))) as Hsplit2.
  { rewrite <- Z.pow_add_r by lia. f_equal. lia. }
  assert (shr_m mrs2 ≤ b * 2 ^ (- (E + n + n2))) as Hm3b.
  { rewrite Hsplit2 in Hm2b. nia. }
  destruct (shr_m mrs2) as [|p|p] eqn:Hp; [exact I| |lia].
  replace (E + n + n2 <=? emax - prec) with true
    by (symmetry; apply Z.leb_le; unfold emax, prec; lia).
  unfold trunc_finite. simpl cond_Zopp.
  destruct (Z.leb_spec 0 (E + n + n2)) as [Hz|Hz].
  - replace (E + n + n2) with 0 in * by lia. simpl in Hm3b. lia.
  - rewrite Z.quot_div_nonneg by lia. split.
    + apply Z.div_pos; lia.
    + apply Z.div_le_upper_bound; [lia|]. lia.
Qed.

Lemma valid_mantissa (s : bool) (m : positive) (e : Z) :
  valid_binary (S754_finite s m e) = true → Z.pos m < 2 ^ 53.
Proof.
  simpl. unfold bounded, canonical_mantissa.
  intros [Hc _]%andb_true_iff. apply Z.eqb_eq in Hc.
  unfold fexp, emin, prec, emax in Hc.
  pose proof (digits2_pos_lt m) as Hlt.
  assert (Z.pos (digits2_pos m) ≤ 53) as Hd by lia.
  pose proof (Z.pow_le_mono_r 2 _ 53 ltac:(lia) Hd). lia.
Qed.

(** A float between [0.01] and [1.0] is a positive finite number
    [m * 2^e] with [m <= 2^(-e)]. *)
Lemma fraction_shape (x : float) :
  PrimFloat.leb 0.01 x = true → PrimFloat.leb x 1 = true →
  ∃ m e, Prim2SF x = S754_finite false m e ∧ e ≤ 0 ∧ Z.pos m ≤ 2 ^ (- e).
Proof.
  rewrite !leb_spec. pose proof (Prim2SF_valid x) as Hvalid.
  remember (Prim2SF 0.01) as low eqn:Hlow. vm_compute in Hlow. subst low.
  remember (Prim2SF 1) as one eqn:Hone. vm_compute in Hone. subst one.
  destruct (Prim2SF x) as [s|s| |s m e]; try discriminate.
  { now destruct s. }
  destruct s; [discriminate|]. intros _ Hle.
  exists m, e. split; [reflexivity|].
  apply valid_mantissa in Hvalid.
  unfold SFleb, SFcompare in Hle.
  destruct (Z.compare_spec e (-52)) as [->|Hlt|Hgt]; [| |discriminate].
  - split; [lia|]. change (2 ^ (- -52)) with 4503599627370496.
    destruct (Pos.compare_cont Eq m 4503599627370496) eqn:Hcmp; try discriminate.
    + apply Pos.compare_eq in Hcmp. rewrite Hcmp. reflexivity.
    + apply Pos.compare_lt_iff in Hcmp. apply Pos2Z.pos_lt_pos in Hcmp.
      apply Z.lt_le_incl. exact Hcmp.
  - split; [lia|].
    pose proof (Z.pow_le_mono_r 2 53 (- e) ltac:(lia) ltac:(lia)). lia.
Qed.

Lemma small_ints_exact :
  forallb small_int_exact (map Z.of_nat (seq 1 50)) = true.
Proof. vm_compute. reflexivity. Qed.

(** The ints from 1 to 50 are converted exactly. *)
Lemma float_of_small_int (b : Z) :
  1 ≤ b ≤ 50 →
  ∃ y m e, float_of_int b = Ok y ∧ Prim2SF y = S754_finite false m e
           ∧ e ≤ 0 ∧ Z.pos m = b * 2 ^ (- e).
Proof.
  intros Hb.
  assert (small_int_exact b = true) as Hexact.
  { pose proof small_ints_exact as Hall.
    rewrite forallb_forall in Hall. apply Hall.
    apply in_map_iff. exists (Z.to_nat b). split; [lia|].
    apply in_seq. lia. }
  unfold small_int_exact in Hexact. unfold float_of_int.
  destruct (binary_normalize prec emax b 0 false) as [| | |[] m e];
    try discriminate.
  apply andb_true_iff in Hexact as [[Hvalid He]%andb_true_iff Hm].
  exists (SF2Prim (S754_finite false m e)), m, e.
  split; [reflexivity|]. split; [now apply Prim2SF_SF2Prim|].
  split; [now apply Z.leb_le | now apply Z.eqb_eq].
Qed.

Lemma update_frequency_bounded (config : Config) :
  1 ≤ batch_size config ≤ 50 →
  PrimFloat.leb 0.01 (frequency config) = true →
  PrimFloat.leb (frequency config) 1 = true →
  ∃ n, update_frequency config = Ok n ∧ 1 ≤ n ≤ batch_size config.
Proof.
  intros Hb Hlow Hhigh.
  destruct (fraction_shape _ Hlow Hhigh) as (m & e & Hx & He & Hm).
  destruct (float_of_small_int _ Hb) as (y & my & ey & Hy & Hys & Hey & Hmy).
  unfold update_frequency, mul_float_int. rewrite Hy. simpl.
  unfold py_int. rewrite mul_spec, Hx, Hys. unfold SF64mul, SFmul. simpl xorb.
  pose proof (binary_round_aux_le (Z.pos (m * my)) (e + ey) (batch_size config))
    as Hround.
  destruct (binary_round_aux prec emax false (Z.pos (m * my)) (e + ey) loc_Exact)
    as [s|s| |s m' e'] eqn:Hr.
  - exists 1. split; [reflexivity | lia].
  - exfalso. apply Hround; try lia.
    rewrite Pos2Z.inj_mul, Hmy.
    replace (- (e + ey)) with (- e + - ey) by lia. rewrite Z.pow_add_r by lia.
    assert (0 < 2 ^ (- ey)) by (apply Z.pow_pos_nonneg; lia). nia.
  - exfalso. apply Hround; try lia.
    rewrite Pos2Z.inj_mul, Hmy.
    replace (- (e + ey)) with (- e + - ey) by lia. rewrite Z.pow_add_r by lia.
    assert (0 < 2 ^ (- ey)) by (apply Z.pow_pos_nonneg; lia). nia.
  - exists (Z.max 1 (trunc_finite s m' e')). split; [reflexivity|].
    assert (0 ≤ trunc_finite s m' e' ≤ batch_size config); [|lia].
    apply Hround; try lia.
    rewrite Pos2Z.inj_mul, Hmy.
    replace (- (e + ey)) with (- e + - ey) by lia. rewrite Z.pow_add_r by lia.
    assert (0 < 2 ^ (- ey)) by (apply Z.pow_pos_nonneg; lia). nia.
Qed.

(** X3: every configuration of the space that [get_configspace] declares
    is assembled: [compute] raises neither at line 39 nor in the baseline
    branch (no [KeyError], no [AssertionError]). *)
Theorem search_space_assembled (config : Config) :
  valid_configuration get_configspace (as_dict config) = true →
  ∃ agent, agent_config config = Ok agent.
Proof.
  intros (Hb & Hlow & Hhigh & Hmode & Hact)%valid_configuration_inv.
  destruct (update_frequency_bounded config Hb Hlow Hhigh) as (n & Hn & _).
  now apply (agent_config_defined config n).
Qed.

(** X4: for every configuration of the declared space the update frequency
    stored in the dictionary lies between 1 and the batch size. *)
Theorem update_frequency_within_batch (config : Config) (agent : pyval) :
  valid_configuration get_configspace (as_dict config) = true →
  agent_config config = Ok agent →
  ∃ n, item "update" agent ≫= item "frequency" = Some (PInt n)
       ∧ 1 ≤ n ≤ batch_size config.
Proof.
  intros (Hb & Hlow & Hhigh & _)%valid_configuration_inv
         (n & b & Hn & _ & ->)%agent_config_inv.
  destruct (update_frequency_bounded config Hb Hlow Hhigh) as (n' & Hn' & Hle).
  rewrite Hn in Hn'. injection Hn' as <-.
  exists n. split; [reflexivity | exact Hle].
Qed.

(** X5: [compute] reads a hyperparameter only where the conditions of
    [get_configspace] make it active: two sampled points that agree on every
    hyperparameter active in the first yield the same result. *)
Theorem inactive_hyperparameters_ignored (c1 c2 : Config) :
  (∀ name, active get_configspace (as_dict c1) name = true →
           assoc name (as_dict c1) = assoc name (as_dict c2)) →
  agent_config c1 = agent_config c2.
Proof.
  intros Hsame.
  destruct (as_dict_lookup c1)
    as (B1 & F1 & L1 & H1 & D1 & R1 & M1 & W1 & A1 & E1 & G1).
  destruct (as_dict_lookup c2)
    as (B2 & F2 & L2 & H2 & D2 & R2 & M2 & W2 & A2 & E2 & G2).
  destruct (active_conditional c1) as (Ha & Hw & Hr).
  pose proof (Hsame "batch_size" eq_refl) as Hb. rewrite B1, B2 in Hb.
  pose proof (Hsame "frequency" eq_refl) as Hf. rewrite F1, F2 in Hf.
  pose proof (Hsame "learning_rate" eq_refl) as Hl. rewrite L1, L2 in Hl.
  pose proof (Hsame "horizon" eq_refl) as Hh. rewrite H1, H2 in Hh.
  pose proof (Hsame "discount" eq_refl) as Hd. rewrite D1, D2 in Hd.
  pose proof (Hsame "ratio_based" eq_refl) as Hrb. rewrite R1, R2 in Hrb.
  pose proof (Hsame "baseline" eq_refl) as Hm. rewrite M1, M2 in Hm.
  pose proof (Hsame "entropy_regularization" eq_refl) as Hg. rewrite G1, G2 in Hg.
  pose proof (Hsame "estimate_advantage") as Hea. rewrite Ha, E1, E2 in Hea.
  pose proof (Hsame "baseline_weight") as Hbw. rewrite Hw, W1, W2 in Hbw.
  pose proof (Hsame "baseline_learning_rate") as Hlr. rewrite Hr, A1, A2 in Hlr.
  clear Hsame B1 F1 L1 H1 D1 R1 M1 W1 A1 E1 G1 B2 F2 L2 H2 D2 R2 M2 W2 A2 E2 G2 Ha Hw Hr.
  destruct c1 as [bs fr lr hz di rb bl bw blr ea er],
           c2 as [bs' fr' lr' hz' di' rb' bl' bw' blr' ea' er'].
  simpl in *.
  injection Hb as <-. injection Hf as <-. injection Hl as <-.
  injection Hh as <-. injection Hd as <-. injection Hrb as <-.
  injection Hm as <-. injection Hg as <-.
  unfold agent_config, update_frequency, baseline_branch, objective_of. simpl.
  destruct (String.eqb bl "no"); [reflexivity|].
  specialize (Hea eq_refl).
  assert (ea = ea') as <-.
  { destruct ea, ea'; simpl in Hea; congruence. }
  destruct (String.eqb bl "same").
  { specialize (Hbw eq_refl).
    assert (bw = bw') as <- by (destruct bw, bw'; simpl in Hbw; congruence).
    reflexivity. }
  destruct (String.eqb bl "yes"); [|reflexivity].
  specialize (Hlr eq_refl).
  assert (blr = blr') as <- by (destruct blr, blr'; simpl in Hlr; congruence).
  reflexivity.
Qed.

(** X6: [ratio_based] is compared with ['yes'] and nothing else: the flag
    of the objective is [True] exactly for ['yes'], and two sampled points
    that differ only in [ratio_based], neither being ['yes'], yield the same
    result; no value is rejected. *)
Theorem ratio_based_only_yes (c1 c2 : Config) :
  (∀ agent, agent_config c1 = Ok agent →
     item "objective" agent ≫= item "ratio_based"
     = Some (PBool (String.eqb (ratio_based c1) "yes")))
  ∧ (ratio_based c1 ≠ "yes" → ratio_based c2 ≠ "yes" →
     (∀ name, name ≠ "ratio_based" →
              assoc name (as_dict c1) = assoc name (as_dict c2)) →
     agent_config c1 = agent_config c2).
Proof.
  split.
  - intros agent (n & b & _ & _ & ->)%agent_config_inv.
    unfold objective_of. simpl. now destruct (String.eqb (ratio_based c1) "yes").
  - intros Hno1 Hno2 Hsame.
    destruct (as_dict_lookup c1)
      as (B1 & F1 & L1 & H1 & D1 & _ & M1 & W1 & A1 & E1 & G1).
    destruct (as_dict_lookup c2)
      as (B2 & F2 & L2 & H2 & D2 & _ & M2 & W2 & A2 & E2 & G2).
    pose proof (Hsame "batch_size" ltac:(discriminate)) as Hb. rewrite B1, B2 in Hb.
    pose proof (Hsame "frequency" ltac:(discriminate)) as Hf. rewrite F1, F2 in Hf.
    pose proof (Hsame "learning_rate" ltac:(discriminate)) as Hl.
    rewrite L1, L2 in Hl.
    pose proof (Hsame "horizon" ltac:(discriminate)) as Hh. rewrite H1, H2 in Hh.
    pose proof (Hsame "discount" ltac:(discriminate)) as Hd. rewrite D1, D2 in Hd.
    pose proof (Hsame "baseline" ltac:(discriminate)) as Hm. rewrite M1, M2 in Hm.
    pose proof (Hsame "entropy_regularization" ltac:(discriminate)) as Hg.
    rewrite G1, G2 in Hg.
    pose proof (Hsame "estimate_advantage" ltac:(discriminate)) as Hea.
    rewrite E1, E2 in Hea.
    pose proof (Hsame "baseline_weight" ltac:(discriminate)) as Hbw.
    rewrite W1, W2 in Hbw.
    pose proof (Hsame "baseline_learning_rate" ltac:(discriminate)) as Hlr.
    rewrite A1, A2 in Hlr.
    clear Hsame B1 F1 L1 H1 D1 M1 W1 A1 E1 G1 B2 F2 L2 H2 D2 M2 W2 A2 E2 G2.
    destruct c1 as [bs fr lr hz di rb bl bw blr ea er],
             c2 as [bs' fr' lr' hz' di' rb' bl' bw' blr' ea' er'].
    simpl in *.
    injection Hb as <-. injection Hf as <-. injection Hl as <-.
    injection Hh as <-. injection Hd as <-. injection Hm as <-.
    injection Hg as <-.
    assert (ea = ea') as <- by (destruct ea, ea'; simpl in Hea; congruence).
    assert (bw = bw') as <- by (destruct bw, bw'; simpl in Hbw; congruence).
    assert (blr = blr') as <- by (destruct blr, blr'; simpl in Hlr; congruence).
    unfold agent_config, objective_of. simpl.
    apply String.eqb_neq in Hno1, Hno2. now rewrite Hno1, Hno2.
Qed.

(** *** The evaluation loop *)

Lemma round_finite_nonneg (m : positive) (e : Z) : 0 ≤ round_finite false m e.
Proof.
  unfold round_finite.
  destruct (Z.leb_spec 0 e) as [He|He]; simpl.
  - apply Z.mul_nonneg_nonneg; [lia | apply Z.pow_nonneg; lia].
  - assert (0 < 2 ^ (- e)) as Hd by (apply Z.pow_pos_nonneg; lia).
    pose proof (Z.div_pos (Z.pos m) (2 ^ (- e)) ltac:(lia) Hd).
    repeat case_match; lia.
Qed.

(** The rounding of a budget that is at least [0.0] is not negative. *)
Lemma py_round_nonneg (budget : float) (n : Z) :
  PrimFloat.leb 0%float budget = true → py_round budget = Ok n → 0 ≤ n.
Proof.
  rewrite leb_spec. unfold py_round, SFleb, SFcompare.
  change (Prim2SF 0%float) with (S754_zero false).
  destruct (Prim2SF budget) as [|[]| |[] m e]; simpl;
    try discriminate; intros _ [= <-]; [lia | apply round_finite_nonneg].
Qed.

Section WorkerProperties.

Context {Environment : Type}.
Variable np_mean : list float → float.
Variable episode_rewards : nat → list float.
Implicit Types (self : TensorforceWorker Environment) (w : World Environment).

Lemma average_rewards_cons (rs : list float) :
  (20 < length rs)%nat →
  ∃ rest, average_rewards np_mean rs = np_mean (window 0 rs) :: rest.
Proof.
  intros Hlen. unfold average_rewards.
  destruct (length rs - 20)%nat as [|k] eqn:Hk; [lia|].
  simpl. eauto.
Qed.

Lemma np_amax_average_rewards (rs : list float) :
  (20 < length rs)%nat → ∃ m, np_amax (average_rewards np_mean rs) = Ok m.
Proof.
  intros (rest & ->)%average_rewards_cons. simpl. eauto.
Qed.

Lemma repetition_ok self (agent : pyval) (t : tallies) w (m : float) :
  np_amax (average_rewards np_mean (episode_rewards (constructed w))) = Ok m →
  repetition np_mean episode_rewards self agent t w
  = (Ok {| final_reward := final_reward t ++
             [np_mean (last_episodes (episode_rewards (constructed w)))];
           max_reward := max_reward t ++ [m];
           rewards := rewards t ++ [episode_rewards (constructed w)] |},
     {| calls := calls w ++ session self agent (constructed w);
        constructed := S (constructed w) |}).
Proof.
  intros Hm.
  unfold repetition, mbind, M_bind, Runner, run, close, log, lift; simpl.
  rewrite Hm. simpl. unfold mret, M_ret. now rewrite <- !app_assoc.
Qed.

Lemma for_range_spec self (agent : pyval) (k : nat) : ∀ (t : tallies) w,
  (∀ i, (i < k)%nat → (20 < length (episode_rewards (constructed w + i)))%nat) →
  ∃ maxs,
    Forall2 (λ r m, np_amax (average_rewards np_mean (episode_rewards r)) = Ok m)
            (seq (constructed w) k) maxs
    ∧ for_range k (repetition np_mean episode_rewards self agent) t w
      = recorded np_mean episode_rewards self agent t w (constructed w) k maxs.
Proof.
  induction k as [|k IH]; intros t w Hlen.
  - exists []. split; [constructor|].
    unfold recorded. destruct t, w; simpl.
    now rewrite !app_nil_r, Nat.add_0_r.
  - destruct (np_amax_average_rewards (episode_rewards (constructed w))) as [m Hm].
    { specialize (Hlen 0%nat). rewrite Nat.add_0_r in Hlen. apply Hlen. lia. }
    simpl for_range. unfold mbind at 1, M_bind at 1.
    rewrite (repetition_ok _ _ _ _ _ Hm).
    edestruct IH as (maxs & Hall & ->).
    { simpl. intros i Hi. specialize (Hlen (S i)).
      rewrite <- Nat.add_succ_comm in Hlen. apply Hlen. lia. }
    exists (m :: maxs). split; [now constructor|].
    unfold recorded; simpl. rewrite <- !app_assoc. simpl.
    now rewrite <- Nat.add_succ_comm.
Qed.

Lemma evaluate_spec self (agent : pyval) (budget : float) (n : Z) w :
  py_round budget = Ok n →
  (∀ i, (i < Z.to_nat n)%nat →
        (20 < length (episode_rewards (constructed w + i)))%nat) →
  ∃ maxs,
    Forall2 (λ r m, np_amax (average_rewards np_mean (episode_rewards r)) = Ok m)
            (seq (constructed w) (Z.to_nat n)) maxs
    ∧ evaluate np_mean episode_rewards self agent budget w
      = recorded np_mean episode_rewards self agent no_tallies w
                 (constructed w) (Z.to_nat n) maxs.
Proof.
  intros Hn Hlen.
  destruct (for_range_spec self agent (Z.to_nat n) no_tallies w Hlen)
    as (maxs & Hall & Hrun).
  exists maxs. split; [exact Hall|].
  unfold evaluate, mbind, M_bind, lift. now rewrite Hn.
Qed.

(** The means that line 112 maximises are those of all the windows but the
    last one, which is the window of line 107. *)
Lemma spec_windows_last (rs : list float) :
  (20 ≤ length rs)%nat →
  map np_mean (spec_windows rs)
  = average_rewards np_mean rs ++ [np_mean (last_episodes rs)].
Proof.
  intros Hlen. unfold spec_windows, average_rewards.
  replace (length rs + 1 - 20)%nat with (S (length rs - 20)) by lia.
  rewrite seq_S, !List.map_app, List.map_map. simpl.
  unfold window at 2, last_episodes.
  rewrite take_ge; [reflexivity|]. rewrite length_drop. lia.
Qed.


(** C8: for a budget that is not negative and rounds to [n], [compute] runs
    the loop body [n] times.  Each pass constructs a Runner that did not
    exist before, from the assembled dictionary, the worker's environment
    and its [max_episode_timesteps], calls [run(num_episodes=200,
    use_tqdm=False)] on it and then [close()]; the three lists end with [n]
    entries each.  The Runners are assumed to hold more than 20 episode
    rewards, as they do after 200 episodes. *)
Theorem compute_repetitions self (config : Config) (agent : pyval)
    (budget : float) (n : Z) w :
  PrimFloat.leb 0%float budget = true →
  agent_config config = Ok agent →
  py_round budget = Ok n →
  (∀ i, (i < Z.to_nat n)%nat →
        (20 < length (episode_rewards (constructed w + i)))%nat) →
  ∃ t w',
    evaluate np_mean episode_rewards self agent budget w = (Ok t, w')
    ∧ compute np_mean episode_rewards self config budget w
      = (Ok {| loss := loss_of np_mean t; info_rewards := rewards t |}, w')
    ∧ 0 ≤ n
    ∧ calls w'
      = calls w ++ flat_map (session self agent) (seq (constructed w) (Z.to_nat n))
    ∧ constructed w' = (constructed w + Z.to_nat n)%nat
    ∧ rewards t = map episode_rewards (seq (constructed w) (Z.to_nat n))
    ∧ Z.of_nat (length (final_reward t)) = n
    ∧ Z.of_nat (length (max_reward t)) = n
    ∧ Z.of_nat (length (rewards t)) = n.
Proof.
  intros Hpos Hagent Hn Hlen.
  pose proof (py_round_nonneg budget n Hpos Hn) as Hn0.
  destruct (evaluate_spec self agent budget n w Hn Hlen) as (maxs & Hall & Hev).
  apply Forall2_length in Hall. rewrite length_seq in Hall.
  unfold recorded in Hev.
  eexists _, _. split; [exact Hev|]. split.
  { unfold compute, mbind, M_bind, lift. rewrite Hagent.
    change (evaluate _ _ _ _ _) with
      (evaluate np_mean episode_rewards self agent budget) at 1.
    now rewrite Hev. }
  simpl. rewrite !length_map, length_seq, <- Hall.
  repeat split; lia.
Qed.

(** C3: the loss that [compute] returns is
    [-mean(final_reward) - mean(max_reward)], where [final_reward] lists, for
    each Runner of the call in turn, the mean of its last 20 episode rewards
    and [max_reward] the maximum recorded for it. *)
Theorem loss_formula self (config : Config) (agent : pyval) (budget : float)
    (n : Z) w :
  agent_config config = Ok agent →
  py_round budget = Ok n →
  (∀ i, (i < Z.to_nat n)%nat →
        (20 < length (episode_rewards (constructed w + i)))%nat) →
  let runners := seq (constructed w) (Z.to_nat n) in
  let final_rewards :=
    map (λ r, np_mean (last_episodes (episode_rewards r))) runners in
  ∃ max_rewards out w',
    Forall2 (λ r m, np_amax (average_rewards np_mean (episode_rewards r)) = Ok m)
            runners max_rewards
    ∧ compute np_mean episode_rewards self config budget w = (Ok out, w')
    ∧ loss out
      = PrimFloat.sub (PrimFloat.opp (np_mean final_rewards)) (np_mean max_rewards)
    ∧ info_rewards out = map episode_rewards runners.
Proof.
  intros Hagent Hn Hlen runners final_rewards.
  destruct (evaluate_spec self agent budget n w Hn Hlen) as (maxs & Hall & Hev).
  exists maxs. eexists _, _. split; [exact Hall|]. split.
  { unfold compute, mbind, M_bind, lift. rewrite Hagent.
    change (evaluate _ _ _ _ _) with
      (evaluate np_mean episode_rewards self agent budget) at 1.
    rewrite Hev. unfold recorded. reflexivity. }
  split; reflexivity.
Qed.

(** What a pass of the loop body that completes has done. *)
Lemma repetition_inv self (agent : pyval) (t t' : tallies) w w' :
  repetition np_mean episode_rewards self agent t w = (Ok t', w') →
  ∃ best,
    np_amax (average_rewards np_mean (episode_rewards (constructed w))) = Ok best
    ∧ final_reward t'
      = final_reward t ++ [np_mean (last_episodes (episode_rewards (constructed w)))]
    ∧ max_reward t' = max_reward t ++ [best]
    ∧ rewards t' = rewards t ++ [episode_rewards (constructed w)].
Proof.
  destruct (np_amax (average_rewards np_mean (episode_rewards (constructed w))))
    as [best|e] eqn:Hbest.
  - rewrite (repetition_ok self agent t w best Hbest).
    intros [= <- _]. exists best. repeat split.
  - unfold repetition, mbind, M_bind, Runner, run, close, log, lift; simpl.
    rewrite Hbest. discriminate.
Qed.

Lemma repetition_short self (agent : pyval) (t : tallies) w :
  (length (episode_rewards (constructed w)) ≤ 20)%nat →
  repetition np_mean episode_rewards self agent t w
  = (Raise ValueError,
     {| calls := calls w ++ session self agent (constructed w);
        constructed := S (constructed w) |}).
Proof.
  intros Hlen.
  unfold repetition, mbind, M_bind, Runner, run, close, log, lift; simpl.
  unfold average_rewards.
  replace (length (episode_rewards (constructed w)) - 20)%nat with 0%nat by lia.
  simpl. now rewrite <- !app_assoc.
Qed.

Lemma for_range_add (body : tallies → M Environment tallies) (a b : nat) :
  ∀ (t : tallies) w,
    for_range (a + b) body t w
    = match for_range a body t w with
      | (Ok t', w') => for_range b body t' w'
      | (Raise e, w') => (Raise e, w')
      end.
Proof.
  induction a as [|a IH]; intros t w; simpl.
  - reflexivity.
  - unfold mbind, M_bind.
    destruct (body t w) as [[t'|e] w']; [apply IH | reflexivity].
Qed.

Lemma np_amax_in (l : list float) (m : float) : np_amax l = Ok m → In m l.
Proof.
  destruct l as [|x rest]; [discriminate|]. simpl. intros [= <-].
  revert x. induction rest as [|y rest IH]; intros x; simpl.
  - now left.
  - destruct (IH (np_maximum x y)) as [Heq|Hin].
    + rewrite <- Heq. unfold np_maximum.
      destruct (PrimFloat.leb y x || PrimFloat.is_nan x); auto.
    + auto.
Qed.

Lemma np_amax_snoc (l : list float) (m x : float) :
  np_amax l = Ok m → np_amax (l ++ [x]) = Ok (np_maximum m x).
Proof.
  destruct l as [|y rest]; [discriminate|]. simpl. intros [= <-].
  now rewrite foldl_app.
Qed.

(** The rounding of a budget between [0.0] and [0.5] is 0. *)
Lemma py_round_half (budget : float) :
  PrimFloat.leb 0 budget = true → PrimFloat.leb budget 0.5 = true →
  py_round budget = Ok 0.
Proof.
  rewrite !leb_spec. unfold py_round.
  pose proof (Prim2SF_valid budget) as Hvalid.
  change (Prim2SF 0%float) with (S754_zero false).
  remember (Prim2SF 0.5) as half eqn:Hhalf. vm_compute in Hhalf. subst half.
  destruct (Prim2SF budget) as [s|s| |s m e]; try discriminate.
  { reflexivity. }
  { now destruct s. }
  destruct s; [discriminate|]. intros _ Hle. f_equal.
  apply valid_mantissa in Hvalid.
  unfold SFleb, SFcompare in Hle. unfold round_finite.
  assert (e ≤ -53 ∧ (e = -53 → Z.pos m ≤ 2 ^ 52)) as [He Hm].
  { destruct (Z.compare_spec e (-53)) as [->|Hlt|Hgt]; [| |discriminate].
    - split; [lia|]. intros _. change (2 ^ 52) with 4503599627370496.
      destruct (Pos.compare_cont Eq m 4503599627370496) eqn:Hcmp;
        try discriminate.
      + apply Pos.compare_eq in Hcmp. rewrite Hcmp. reflexivity.
      + apply Pos.compare_lt_iff in Hcmp. apply Pos2Z.pos_lt_pos in Hcmp.
        apply Z.lt_le_incl. exact Hcmp.
    - split; lia. }
  destruct (Z.leb_spec 0 e) as [?|_]; [lia|].
  assert (2 ^ 53 ≤ 2 ^ (- e)) as Hd by (apply Z.pow_le_mono_r; lia).
  rewrite Z.div_small, Z.mod_small by lia. simpl cond_Zopp.
  destruct (Z.ltb_spec (2 * Z.pos m) (2 ^ (- e))) as [?|Hge]; [reflexivity|].
  destruct (Z.ltb_spec (2 ^ (- e)) (2 * Z.pos m)) as [Hlt|?]; [|reflexivity].
  exfalso.
  destruct (Z.eq_dec e (-53)) as [->|Hne].
  - specialize (Hm eq_refl). change (2 ^ (- -53)) with (2 * 2 ^ 52) in Hlt. lia.
  - assert (2 ^ 54 ≤ 2 ^ (- e)) by (apply Z.pow_le_mono_r; lia).
    change (2 ^ 54) with (2 * 2 ^ 53) in *. lia.
Qed.

(** X7: a conditional hyperparameter that the baseline mode reads but the
    dictionary lacks makes [compute] raise [KeyError] for that key before
    any Runner is constructed; [estimate_advantage] is looked up first. *)
Theorem missing_hyperparameter self (config : Config) (budget : float) (n : Z) w :
  update_frequency config = Ok n →
  (baseline config = "same" ∨ baseline config = "yes" →
   estimate_advantage config = None →
   compute np_mean episode_rewards self config budget w
   = (Raise (KeyError "estimate_advantage"), w))
  ∧ (baseline config = "same" → is_Some (estimate_advantage config) →
     baseline_weight config = None →
     compute np_mean episode_rewards self config budget w
     = (Raise (KeyError "baseline_weight"), w))
  ∧ (baseline config = "yes" → is_Some (estimate_advantage config) →
     baseline_learning_rate config = None →
     compute np_mean episode_rewards self config budget w
     = (Raise (KeyError "baseline_learning_rate"), w)).
Proof.
  intros Hn.
  assert (∀ e, baseline_branch config = Raise e →
               compute np_mean episode_rewards self config budget w = (Raise e, w))
    as Hstop.
  { intros e Hb. unfold compute, mbind, M_bind, lift, agent_config.
    now rewrite Hn, Hb. }
  split; [|split].
  - intros Hmode Hea. apply Hstop. unfold baseline_branch.
    destruct Hmode as [Hmode|Hmode]; now rewrite Hmode, Hea.
  - intros Hmode [ea Hea] Hw. apply Hstop. unfold baseline_branch.
    now rewrite Hmode, Hea, Hw.
  - intros Hmode [ea Hea] Hr. apply Hstop. unfold baseline_branch.
    now rewrite Hmode, Hea, Hr.
Qed.

(** X8: a budget between [0.0] and [0.5], the [min_budget] that [main]
    gives the optimiser, rounds to 0: [compute] constructs no Runner and
    returns the loss [-mean([]) - mean([])] with no reward sequence. *)
Theorem no_repetition self (config : Config) (agent : pyval) (budget : float) w :
  agent_config config = Ok agent →
  PrimFloat.leb 0 budget = true → PrimFloat.leb budget 0.5 = true →
  compute np_mean episode_rewards self config budget w
  = (Ok {| loss := PrimFloat.sub (PrimFloat.opp (np_mean [])) (np_mean []);
           info_rewards := [] |}, w).
Proof.
  intros Hagent Hlow Hhigh.
  unfold compute, evaluate, mbind, M_bind, lift.
  now rewrite Hagent, (py_round_half budget Hlow Hhigh).
Qed.

(** X9: when the Runner of some repetition holds at most 20 episode rewards,
    the first such repetition makes [compute] raise [ValueError] (the
    maximum of an empty list), after that Runner and the ones before it have
    been constructed, run and closed; nothing is returned. *)
Theorem short_run_aborts self (config : Config) (agent : pyval) (budget : float)
    (n : Z) (k : nat) w :
  agent_config config = Ok agent →
  py_round budget = Ok n →
  (k < Z.to_nat n)%nat →
  (∀ i, (i < k)%nat → (20 < length (episode_rewards (constructed w + i)))%nat) →
  (length (episode_rewards (constructed w + k)) ≤ 20)%nat →
  compute np_mean episode_rewards self config budget w
  = (Raise ValueError,
     {| calls := calls w ++ flat_map (session self agent) (seq (constructed w) (S k));
        constructed := constructed w + S k |}).
Proof.
  intros Hagent Hn Hk Hlong Hshort.
  unfold compute, evaluate, mbind, M_bind, lift. rewrite Hagent, Hn.
  replace (Z.to_nat n) with (k + S (Z.to_nat n - S k))%nat by lia.
  rewrite for_range_add.
  destruct (for_range_spec self agent k no_tallies w Hlong) as (maxs & _ & ->).
  unfold recorded. simpl for_range. unfold mbind at 1, M_bind at 1.
  rewrite repetition_short by exact Hshort.
  cbn [calls constructed].
  rewrite seq_S, flat_map_app, <- app_assoc. cbn [flat_map].
  now rewrite app_nil_r, Nat.add_succ_r.
Qed.

(** X10: in a pass of the loop that completes, the largest mean over all
    the windows of 20 episodes is the larger of the two numbers the pass
    records: [np.maximum] of its [max_reward] and its [final_reward]. *)
Theorem all_windows_from_recorded self (agent : pyval) (t t' : tallies) w w' :
  repetition np_mean episode_rewards self agent t w = (Ok t', w') →
  ∃ final best,
    final_reward t' = final_reward t ++ [final]
    ∧ max_reward t' = max_reward t ++ [best]
    ∧ spec_max_windowed np_mean (episode_rewards (constructed w))
      = Ok (np_maximum best final).
Proof.
  intros (best & Hbest & Hfinal & Hmax & _)%repetition_inv.
  eexists _, best. split; [exact Hfinal|]. split; [exact Hmax|].
  unfold spec_max_windowed. rewrite spec_windows_last.
  - now apply np_amax_snoc.
  - destruct (le_lt_dec 20 (length (episode_rewards (constructed w))))
      as [?|Hlt]; [assumption|].
    unfold average_rewards in Hbest.
    replace (length (episode_rewards (constructed w)) - 20)%nat with 0%nat
      in Hbest by lia.
    discriminate.
Qed.

(** X11: the maximum a pass of the loop records is the mean of one full
    window of 20 episodes, which ends before the last episode. *)
Theorem recorded_max_is_window_mean self (agent : pyval) (t t' : tallies) w w' :
  repetition np_mean episode_rewards self agent t w = (Ok t', w') →
  ∃ best start,
    max_reward t' = max_reward t ++ [best]
    ∧ (start + 20 < length (episode_rewards (constructed w)))%nat
    ∧ length (window start (episode_rewards (constructed w))) = 20%nat
    ∧ best = np_mean (window start (episode_rewards (constructed w))).
Proof.
  intros (best & Hbest & _ & Hmax & _)%repetition_inv.
  apply np_amax_in in Hbest. unfold average_rewards in Hbest.
  apply in_map_iff in Hbest as (start & Hmean & Hin).
  apply in_seq in Hin.
  exists best, start. split; [exact Hmax|]. split; [lia|].
  split; [|now rewrite Hmean].
  unfold window. rewrite length_take, length_drop. lia.
Qed.

End WorkerProperties.

(** *** The theorems at sample inputs *)

Lemma late_reward_long (i : nat) :
  (20 < length ((λ _ : nat, late_reward) i))%nat.
Proof. apply Nat.ltb_lt. reflexivity. Qed.

Lemma update_frequency_floor_witness :
  update_frequency (sample "no" 0.5 10 2e-5 None) = Ok 5
  ∧ update_frequency (sample "no" 0.01 1 2e-5 None) = Ok 1.
Proof.
  split.
  - destruct (update_frequency_floor (sample "no" 0.5 10 2e-5 None))
      as (_ & _ & Hfive & _).
    apply Hfive; reflexivity.
  - destruct (update_frequency_floor (sample "no" 0.01 1 2e-5 None))
      as (_ & _ & _ & Hone).
    apply Hone; reflexivity.
Defined.

Lemma entropy_clamped_witness :
  (∃ agent, agent_config (sample "no" 0.5 10 2e-5 None) = Ok agent
            ∧ item "entropy_regularization" agent = Some (PFloat 0.0))
  ∧ (∃ agent, agent_config (sample "no" 0.5 10 5e-5 None) = Ok agent
              ∧ item "entropy_regularization" agent = Some (PFloat 5e-5)).
Proof.
  split; eexists; (split; [reflexivity|]).
  - destruct (entropy_clamped (sample "no" 0.5 10 2e-5 None) _ eq_refl)
      as (_ & _ & Hlow & _).
    apply Hlow. reflexivity.
  - destruct (entropy_clamped (sample "no" 0.5 10 5e-5 None) _ eq_refl)
      as (_ & _ & _ & Hhigh).
    apply Hhigh. reflexivity.
Defined.

Lemma no_baseline_ignores_estimate_advantage_witness :
  agent_config (sample "no" 0.5 10 2e-5 (Some "yes"))
  = agent_config (sample "no" 0.5 10 2e-5 None).
Proof.
  apply (no_baseline_ignores_estimate_advantage
           (sample "no" 0.5 10 2e-5 (Some "yes")) (sample "no" 0.5 10 2e-5 None)).
  - reflexivity.
  - unfold agree_but_estimate_advantage. simpl. repeat split.
Defined.

Lemma predict_action_values_off_witness :
  ∃ agent, agent_config (sample "same" 0.5 10 2e-5 (Some "no")) = Ok agent
           ∧ item "reward_estimation" agent ≫= item "predict_action_values"
             = Some (PBool false).
Proof.
  assert ("same" ∈ ["no"; "same"; "yes"]) as Hmode by (apply mode_elem; tauto).
  destruct (predict_action_values_off (sample "same" 0.5 10 2e-5 (Some "no")) Hmode)
    as (_ & Hoff & Hdef).
  destruct (Hdef 5) as [agent Hagent].
  - reflexivity.
  - unfold active_present. simpl. eauto.
  - exists agent. split; [exact Hagent | exact (Hoff agent Hagent)].
Defined.



Lemma compute_repetitions_witness :
  ∃ out w',
    compute mean_seq (λ _, late_reward) sample_worker
            (sample "no" 0.5 10 2e-5 None) 2 fresh_world = (Ok out, w')
    ∧ length (info_rewards out) = 2%nat
    ∧ constructed w' = 2%nat
    ∧ ∃ agent, calls w' = session sample_worker agent 0 ++ session sample_worker agent 1.
Proof.
  epose proof (compute_repetitions mean_seq (λ _, late_reward) sample_worker
                 (sample "no" 0.5 10 2e-5 None) _ 2%float 2 fresh_world
                 eq_refl eq_refl eq_refl (λ i _, late_reward_long i))
    as (t & w' & _ & Hcompute & _ & Hcalls & Hnew & _ & _ & _ & Hlen).
  eexists _, w'. split; [exact Hcompute|].
  split; [simpl; lia|]. split; [exact Hnew|].
  eexists. rewrite Hcalls. reflexivity.
Defined.

Lemma loss_formula_witness :
  ∃ max_rewards out w',
    Forall2 (λ r m, np_amax (average_rewards mean_seq late_reward) = Ok m)
            [0%nat; 1%nat] max_rewards
    ∧ compute mean_seq (λ _, late_reward) sample_worker
              (sample "no" 0.5 10 2e-5 None) 2 fresh_world = (Ok out, w')
    ∧ loss out
      = PrimFloat.sub
          (PrimFloat.opp
             (mean_seq [mean_seq (last_episodes late_reward);
                        mean_seq (last_episodes late_reward)]))
          (mean_seq max_rewards)
    ∧ info_rewards out = [late_reward; late_reward].
Proof.
  exact (loss_formula mean_seq (λ _, late_reward) sample_worker
           (sample "no" 0.5 10 2e-5 None) _ 2%float 2 fresh_world
           eq_refl eq_refl (λ i _, late_reward_long i)).
Defined.

(** C2: on 200 episode rewards of which only the last one is not zero,
    line 107 records the mean [1.0] of the last 20 episodes, while line 112
    records [0.0]: the largest mean over the windows that start at episodes
    0 to 179.  The largest mean over all the 181 windows of 20 episodes is
    [1.0], that of the window starting at episode 180. *)
Theorem last_window_missed :
  length late_reward = 200%nat
  ∧ length (average_rewards mean_seq late_reward) = 180%nat
  ∧ length (spec_windows late_reward) = 181%nat
  ∧ (∃ agent t w',
       agent_config (sample "no" 0.5 10 2e-5 None) = Ok agent
       ∧ evaluate mean_seq (λ _, late_reward) sample_worker agent 1 fresh_world
         = (Ok t, w')
       ∧ final_reward t = [1%float]
       ∧ max_reward t = [0%float])
  ∧ spec_max_windowed mean_seq late_reward = Ok 1%float.
Proof.
  split; [reflexivity|]. split; [reflexivity|]. split; [reflexivity|]. split.
  - eexists _, _, _. split; [reflexivity|]. split; [vm_compute; reflexivity|].
    split; reflexivity.
  - vm_compute. reflexivity.
Qed.

Lemma search_space_assembled_witness :
  ∃ agent, agent_config searched = Ok agent.
Proof. exact (search_space_assembled searched eq_refl). Defined.

Lemma update_frequency_within_batch_witness :
  ∃ agent n, agent_config searched = Ok agent
             ∧ item "update" agent ≫= item "frequency" = Some (PInt n)
             ∧ 1 ≤ n ≤ 10.
Proof.
  epose proof (update_frequency_within_batch searched _ eq_refl eq_refl)
    as (n & Hn & Hle).
  eexists _, n. split; [reflexivity|]. split; [exact Hn | exact Hle].
Defined.

Lemma inactive_hyperparameters_ignored_witness :
  agent_config searched = agent_config searched_other.
Proof.
  apply (inactive_hyperparameters_ignored searched searched_other).
  intros name.
  destruct (String.eqb_spec "baseline_learning_rate" name) as [<-|Hother].
  - discriminate.
  - intros _. apply String.eqb_neq in Hother.
    unfold as_dict, searched, searched_other. cbn -[String.eqb].
    now rewrite Hother.
Defined.

Lemma missing_hyperparameter_witness :
  compute mean_seq (λ _, late_reward) sample_worker
          (sample "same" 0.5 10 2e-5 None) 1 fresh_world
  = (Raise (KeyError "estimate_advantage"), fresh_world).
Proof.
  apply (missing_hyperparameter mean_seq (λ _, late_reward) sample_worker
           (sample "same" 0.5 10 2e-5 None) 1%float 5 fresh_world eq_refl).
  - left. reflexivity.
  - reflexivity.
Defined.

Lemma no_repetition_witness :
  compute mean_seq (λ _, late_reward) sample_worker
          (sample "no" 0.5 10 2e-5 None) 0.5 fresh_world
  = (Ok {| loss := PrimFloat.sub (PrimFloat.opp (mean_seq [])) (mean_seq []);
           info_rewards := [] |}, fresh_world).
Proof.
  exact (no_repetition mean_seq (λ _, late_reward) sample_worker
           (sample "no" 0.5 10 2e-5 None) _ 0.5%float fresh_world
           eq_refl eq_refl eq_refl).
Defined.

Lemma short_run_aborts_witness :
  ∃ agent,
    compute mean_seq (λ _, short_run) sample_worker
            (sample "no" 0.5 10 2e-5 None) 1 fresh_world
    = (Raise ValueError,
       {| calls := session sample_worker agent 0; constructed := 1 |}).
Proof.
  eexists.
  apply (short_run_aborts mean_seq (λ _, short_run) sample_worker
           (sample "no" 0.5 10 2e-5 None) _ 1%float 1 0 fresh_world eq_refl eq_refl).
  - simpl. lia.
  - intros i Hi. lia.
  - apply Nat.leb_le. reflexivity.
Defined.

Lemma all_windows_from_recorded_witness :
  ∃ t' w',
    repetition mean_seq (λ _, late_reward) sample_worker PNone no_tallies fresh_world
    = (Ok t', w')
    ∧ ∃ final best,
        final_reward t' = [final] ∧ max_reward t' = [best]
        ∧ spec_max_windowed mean_seq late_reward = Ok (np_maximum best final).
Proof.
  eexists _, _. split; [reflexivity|].
  apply (all_windows_from_recorded mean_seq (λ _, late_reward) sample_worker
           PNone no_tallies _ fresh_world _ eq_refl).
Defined.

Lemma recorded_max_is_window_mean_witness :
  ∃ t' w',
    repetition mean_seq (λ _, late_reward) sample_worker PNone no_tallies fresh_world
    = (Ok t', w')
    ∧ ∃ best start,
        max_reward t' = [best]
        ∧ (start + 20 < length late_reward)%nat
        ∧ length (window start late_reward) = 20%nat
        ∧ best = mean_seq (window start late_reward).
Proof.
  eexists _, _. split; [reflexivity|].
  apply (recorded_max_is_window_mean mean_seq (λ _, late_reward) sample_worker
           PNone no_tallies _ fresh_world _ eq_refl).
Defined.

End Tune.
